(** * InvenTree/views.py: generic JSON views

    A shallow embedding of [InvenTree/InvenTree/views.py]: the tree
    serializer, the Ajax form mixin with its create, update and delete
    views, the QR code view and the index page view.

    Python dictionaries are finite maps with string keys ([gmap string _]),
    Python integers are [Z], database tables are finite maps from the
    primary key to the row, and the two dictionaries that
    [renderJsonResponse] takes as default arguments live in an explicit
    process state that every call threads through. *)

From stdpp Require Import gmap strings list fin_maps sorting.
From Stdlib Require Import ZArith.

Set Warnings "-register-all".
#[local] Open Scope string_scope.
#[local] Open Scope list_scope.
#[local] Open Scope Z_scope.

(** ** JSON values

    What [JsonResponse] serialises: [None], booleans, integers, strings,
    lists and dictionaries with string keys. *)

Inductive json :=
  | JNull
  | JBool (b : bool)
  | JInt (z : Z)
  | JStr (s : string)
  | JList (l : list json)
  | JDict (d : gmap string json).

(** Python's truth value of a JSON-like object ([if qr:]). *)
Definition truthy (v : json) : bool :=
  match v with
  | JNull => false
  | JBool b => b
  | JInt z => negb (z =? 0)
  | JStr s => negb (String.eqb s "")
  | JList l => negb (bool_decide (length l = 0%nat))
  | JDict d => negb (bool_decide (size d = 0%nat))
  end.

(** [JsonResponse(data, safe=False)]: the body is the value as it is when the
    response is built. *)
Inductive HttpResponse :=
  | JsonResponse (body : json).

(** ** The tree serializer *)

Module TreeSerializer.

(** A row of a tree model (a part category, a stock location): the display
    name, the self-referential parent key and the stock count the view
    reads through [item.stock_item_count]. *)
Record Row := {
  name : string;
  parent : option Z;
  stock_item_count : Z
}.

(** A model instance is a primary key with its row; [item.id] is the key. *)
Definition Item : Type := Z * Row.
Definition id (item : Item) : Z := item.1.

(** The view class: [self.model.objects] is the table, [self.title] the
    label of the synthetic root, [root_url] the overridable property and
    [get_absolute_url] the model's URL method. *)
Record View := {
  model : gmap Z Row;
  title : string;
  root_url : string;
  get_absolute_url : Item → string
}.

(** Default implementation of the [root_url] property. *)
Definition default_root_url : string := "#".

(** [objects.all()]: every instance of the table. *)
Definition objects (db : gmap Z Row) : list Item := map_to_list db.

(** [order_by('name')]: ascending by name, strings compared
    lexicographically. *)
Definition name_le (a b : Item) : Prop := String.leb (name a.2) (name b.2).

Definition order_by_name (l : list Item) : list Item := merge_sort name_le l.

(** [objects.filter(parent=None)] *)
Definition filter_parent_None (db : gmap Z Row) : list Item :=
  filter (λ c : Item, parent c.2 = None) (objects db).

(** Modelled from the spec: the reverse relation [item.children] of the
    parent foreign key, declared with the model outside this module: the
    rows whose parent reference is [item]. *)
Definition children (db : gmap Z Row) (item : Item) : list Item :=
  filter (λ c : Item, parent c.2 = Some (id item)) (objects db).

(** Modelled from the spec: the model property [item.has_children], also
    declared with the model: the record has at least one child record. *)
Definition has_children (db : gmap Z Row) (item : Item) : bool :=
  bool_decide (0 < length (children db item))%nat.

(** [itemToJson]. The recursion follows the hierarchy stored in the table,
    so it is bounded by [fuel]; [None] means the bound was reached. *)
Fixpoint itemToJson (self : View) (fuel : nat) (item : Item) : option json :=
  match fuel with
  | O => None
  | S fuel' =>
      let data : gmap string json :=
        {[ "pk" := JInt (id item);
           "text" := JStr (name item.2);
           "href" := JStr (get_absolute_url self item);
           "tags" := JList [JInt (stock_item_count item.2)] ]} in
      if has_children (model self) item then
        nodes ← mapM (itemToJson self fuel')
                     (order_by_name (children (model self) item));
        Some (JDict (<["nodes" := JList nodes]> data))
      else Some (JDict data)
  end.

(** The loop of [get]: append the node of each top item and add its count. *)
Definition get_loop (self : View) (fuel : nat) (top_items : list Item)
    : option (list json * Z) :=
  foldl (λ acc item,
           '(nodes, top_count) ← acc;
           node ← itemToJson self fuel item;
           Some (nodes ++ [node], top_count + stock_item_count item.2))
        (Some ([], 0)) top_items.

Definition get (self : View) (fuel : nat) : option HttpResponse :=
  let top_items := order_by_name (filter_parent_None (model self)) in
  '(nodes, top_count) ← get_loop self fuel top_items;
  let top : gmap string json :=
    {[ "pk" := JNull;
       "text" := JStr (title self);
       "href" := JStr (root_url self);
       "nodes" := JList nodes;
       "tags" := JList [JInt top_count] ]} in
  let response : gmap string json := {[ "tree" := JList [JDict top] ]} in
  Some (JsonResponse (JDict response)).

End TreeSerializer.

(** ** The objects the Ajax views work on *)

(** Exceptions that cross this module. *)
Inductive exn :=
  | AttributeError
  | KeyError
  | Http404
  | OtherError (what : string).

#[global] Instance exn_eq_dec : EqDecision exn.
Proof. solve_decision. Defined.

Inductive result (A : Type) :=
  | Returns (a : A)
  | Raises (e : exn).
Arguments Returns {A} a.
Arguments Raises {A} e.

(** The request: its query-string and body parameters. *)
Record Request := {
  GET : gmap string string;
  POST : gmap string string
}.

(** A persisted record of the model a view serves: its field values under its
    primary key. [obj.pk] and [obj.id] both read the key. *)
Definition Obj : Type := Z * gmap string json.
Definition pk (obj : Obj) : Z := obj.1.
Definition id (obj : Obj) : Z := obj.1.

(** A bound form: [is_valid()] and [save()], which writes to the table and
    returns the saved object. *)
Record Form := {
  is_valid : bool;
  save : gmap Z (gmap string json) → Obj * gmap Z (gmap string json)
}.

(** Values a template context holds. *)
Inductive cval :=
  | CJson (v : json)
  | CForm (f : Form)
  | CObj (o : Obj).

(** [django.template.loader.render_to_string]. *)
Class TemplateEngine := {
  render_to_string : string → gmap string cval → Request → string
}.

(** The state of the running process: the table of the model, and the two
    dictionary objects created once, when [renderJsonResponse] is defined, as
    the default values of its [data] and [context] parameters. Those two
    objects are reachable only by omitting the argument, so a dictionary a
    caller passes never aliases them. *)
Record World := {
  table : gmap Z (gmap string json);
  default_data : gmap string json;
  default_context : gmap string cval
}.

Definition set_table (t : gmap Z (gmap string json)) (w : World) : World :=
  {| table := t; default_data := default_data w;
     default_context := default_context w |}.
Definition set_default_data (d : gmap string json) (w : World) : World :=
  {| table := table w; default_data := d;
     default_context := default_context w |}.
Definition set_default_context (c : gmap string cval) (w : World) : World :=
  {| table := table w; default_data := default_data w;
     default_context := c |}.

(** The process right after the module is loaded. *)
Definition initial_world (t : gmap Z (gmap string json)) : World :=
  {| table := t; default_data := ∅; default_context := ∅ |}.

(** A keyword argument with a default: omitted, or passed by the caller. *)
Inductive arg (A : Type) :=
  | Omitted
  | Passed (a : A).
Arguments Omitted {A}.
Arguments Passed {A} a.

(** Computations on the process state that return or raise. *)
Definition M (A : Type) : Type := World → World * result A.

#[global] Instance M_ret : MRet M := λ A a w, (w, Returns a).
#[global] Instance M_bind : MBind M := λ A B f m w,
  match m w with
  | (w', Returns a) => f a w'
  | (w', Raises e) => (w', Raises e)
  end.

Definition raise {A} (e : exn) : M A := λ w, (w, Raises e).
Definition lift {A} (r : result A) : M A := λ w, (w, r).
Definition modify (f : World → World) : M unit := λ w, (f w, Returns ()).

(** [try: body except e: handler] *)
Definition try_except {A} (body : M A) (e : exn) (handler : M A) : M A := λ w,
  match body w with
  | (w', Raises e') => if bool_decide (e' = e) then handler w' else (w', Raises e')
  | r => r
  end.

(** ** AjaxMixin *)

Module AjaxMixin.

(** What the mixin reads from [self]: the class attributes and the
    [get_data] hook. *)
Record View := {
  ajax_form_action : string;
  ajax_form_title : string;
  ajax_template_name : string;
  get_data : gmap string json
}.

(** The mixin as a base class: [ajax_form_action = ''],
    [ajax_form_title = ''] and a [get_data] that returns [{}]. A subclass
    sets the class attributes and keeps the inherited hook. *)
Definition subclass (action title template : string) : View :=
  {| ajax_form_action := action;
     ajax_form_title := title;
     ajax_template_name := template;
     get_data := ∅ |}.

Definition get_param (request : Request) (name : string) (method : string)
    : option string :=
  if String.eqb method "POST" then POST request !! name
  else GET request !! name.

(** The dictionary a parameter is bound to, and where its mutation lands. *)
Definition bound_data (data : arg (gmap string json)) (w : World) :=
  match data with Omitted => default_data w | Passed d => d end.
Definition bound_context (context : arg (gmap string cval)) (w : World) :=
  match context with Omitted => default_context w | Passed c => c end.
Definition store_data (data : arg (gmap string json))
    (d : gmap string json) (w : World) : World :=
  match data with Omitted => set_default_data d w | Passed _ => w end.
Definition store_context (context : arg (gmap string cval))
    (c : gmap string cval) (w : World) : World :=
  match context with Omitted => set_default_context c w | Passed _ => w end.

(** [for key in fb.keys(): data[key] = fb[key]] *)
Definition update_from (fb data : gmap string json) : gmap string json :=
  foldl (λ d key, from_option (λ v, <[key := v]> d) d (fb !! key))
        data (elements (dom fb)).

Definition renderJsonResponse `{TemplateEngine} (self : View)
    (request : Request) (form : option Form)
    (data : arg (gmap string json)) (context : arg (gmap string cval))
    : M HttpResponse := λ w,
  let ctx := bound_context context w in
  let ctx := match form with
             | Some f => <["form" := CForm f]> ctx
             | None => ctx
             end in
  let d := bound_data data w in
  let d := <["title" := JStr (ajax_form_title self)]> d in
  let d := <["html_form" :=
               JStr (render_to_string (ajax_template_name self) ctx request)]> d in
  let fb := get_data self in
  let d := update_from fb d in
  (store_context context ctx (store_data data d w),
   Returns (JsonResponse (JDict d))).

End AjaxMixin.

(** What the generic editing views add to [self]: the form factory, the
    framework's context and the model's URL method, which raises
    [AttributeError] on a model that does not define it. *)
Record FormView := {
  view :> AjaxMixin.View;
  get_form : Request → option Obj → Form;
  get_context_data : option Obj → gmap string cval;
  get_absolute_url : Obj → result string
}.

(** [self.get_object()]: the record under the key of the URL, or the
    framework's not-found failure. *)
Definition get_object (key : Z) : M Obj := λ w,
  match table w !! key with
  | Some row => (w, Returns (key, row))
  | None => (w, Raises Http404)
  end.

(** [obj.delete()]: the row of the object leaves the table. What the
    framework does besides (cascades to rows of other models, signals) lies
    outside this module and is not modelled. *)
Definition delete_obj (obj : Obj) : M unit :=
  modify (λ w, set_table (delete (id obj) (table w)) w).

(** [form.save()] *)
Definition form_save (form : Form) : M Obj := λ w,
  let '(obj, t) := save form (table w) in (set_table t w, Returns obj).

Module AjaxView.

Definition cls : AjaxMixin.View := AjaxMixin.subclass "" "" "modal_form.html".

Definition post (self : AjaxMixin.View) (request : Request) : M HttpResponse :=
  mret (JsonResponse (JStr "")).

Definition get `{TemplateEngine} (self : AjaxMixin.View) (request : Request)
    : M HttpResponse :=
  AjaxMixin.renderJsonResponse self request None Omitted Omitted.

End AjaxView.

Module QRCodeView.

(** [self] of a QR view: the mixin's attributes and the [get_qr_data]
    hook. *)
Record Self := {
  view :> AjaxMixin.View;
  get_qr_data : json
}.

(** The class itself: its template, and a hook that returns [None]. *)
Definition cls : Self :=
  {| view := AjaxMixin.subclass "" "" "qr_code.html";
     get_qr_data := JNull |}.

Definition get_context_data (self : Self) : gmap string cval :=
  let context : gmap string cval := ∅ in
  let qr := get_qr_data self in
  if truthy qr then <["qr_data" := CJson qr]> context
  else <["error_msg" := CJson (JStr "Error generating QR code")]> context.

(** [self.kwargs['pk']] raises [KeyError] when the route has no such
    parameter. *)
Definition get `{TemplateEngine} (self : Self) (request : Request)
    (kwargs : gmap string json) : M HttpResponse :=
  match kwargs !! "pk" with
  | None => raise KeyError
  | Some _ =>
      AjaxMixin.renderJsonResponse self request None Omitted
        (Passed (get_context_data self))
  end.

End QRCodeView.

Module AjaxCreateView.

(** A create view that sets its class attributes, form and model, and
    inherits [get_data] from the mixin. *)
Definition subclass (action title template : string)
    (form : Request → option Obj → Form)
    (context : option Obj → gmap string cval)
    (url : Obj → result string) : FormView :=
  {| view := AjaxMixin.subclass action title template;
     get_form := form; get_context_data := context;
     get_absolute_url := url |}.

(** The call to the framework's [get] only sets up the view; its response
    is dropped. *)
Definition get `{TemplateEngine} (self : FormView) (request : Request)
    : M HttpResponse :=
  let form := get_form self request None in
  AjaxMixin.renderJsonResponse self request (Some form) Omitted Omitted.

Definition post `{TemplateEngine} (self : FormView) (request : Request)
    : M HttpResponse :=
  let form := get_form self request None in
  let data : gmap string json := {[ "form_valid" := JBool (is_valid form) ]} in
  data ← (if is_valid form then
            obj ← form_save form;
            let data := <["pk" := JInt (pk obj)]> data in
            try_except
              (url ← lift (get_absolute_url self obj);
               mret (<["url" := JStr url]> data))
              AttributeError
              (mret data)
          else mret data);
  AjaxMixin.renderJsonResponse self request (Some form) (Passed data) Omitted.

End AjaxCreateView.

Module AjaxUpdateView.

Definition subclass (action title template : string)
    (form : Request → option Obj → Form)
    (context : option Obj → gmap string cval)
    (url : Obj → result string) : FormView :=
  {| view := AjaxMixin.subclass action title template;
     get_form := form; get_context_data := context;
     get_absolute_url := url |}.

(** The framework's [get] resolves [self.object] first. *)
Definition get `{TemplateEngine} (self : FormView) (request : Request)
    (key : Z) : M HttpResponse :=
  object ← get_object key;
  AjaxMixin.renderJsonResponse self request
    (Some (get_form self request (Some object))) Omitted
    (Passed (get_context_data self (Some object))).

Definition post `{TemplateEngine} (self : FormView) (request : Request)
    (key : Z) : M HttpResponse :=
  object ← get_object key;
  let form := get_form self request (Some object) in
  let data : gmap string json := {[ "form_valid" := JBool (is_valid form) ]} in
  data ← (if is_valid form then
            obj ← form_save form;
            let data := <["pk" := JInt (id obj)]> data in
            try_except
              (url ← lift (get_absolute_url self obj);
               mret (<["url" := JStr url]> data))
              AttributeError
              (mret data)
          else mret data);
  AjaxMixin.renderJsonResponse self request (Some form) (Passed data) Omitted.

End AjaxUpdateView.

Module AjaxDeleteView.

Definition subclass (action title template : string)
    (form : Request → option Obj → Form)
    (context : option Obj → gmap string cval)
    (url : Obj → result string) : FormView :=
  {| view := AjaxMixin.subclass action title template;
     get_form := form; get_context_data := context;
     get_absolute_url := url |}.

Definition get `{TemplateEngine} (self : FormView) (request : Request)
    (key : Z) : M HttpResponse :=
  object ← get_object key;
  obj ← get_object key;
  let data : gmap string json :=
    {[ "id" := JInt (id obj);
       "delete" := JBool false;
       "title" := JStr (AjaxMixin.ajax_form_title self);
       "html_data" :=
         JStr (render_to_string (AjaxMixin.ajax_template_name self)
                 (get_context_data self (Some object)) request) ]} in
  mret (JsonResponse (JDict data)).

Definition post `{TemplateEngine} (self : FormView) (request : Request)
    (key : Z) : M HttpResponse :=
  obj ← get_object key;
  let pk := id obj in
  delete_obj obj;;
  let data : gmap string json :=
    {[ "id" := JInt pk; "delete" := JBool true ]} in
  AjaxMixin.renderJsonResponse self request None (Passed data) Omitted.

End AjaxDeleteView.

(** ** The index page *)

Module IndexView.

(** A part, as far as the index page reads it: the two flags the queries
    filter on and the answer of the model's [need_to_restock()] method,
    which is defined with the model and taken as given for each record. *)
Record PartRow := {
  purchaseable : bool;
  buildable : bool;
  need_to_restock : bool
}.

Definition Part : Type := Z * PartRow.

(** A row of the user's starred parts. *)
Record Star := { part : Part }.

(** Values of the page context. *)
Inductive ival :=
  | IParts (l : list Part)
  | IOther (v : cval).

Definition objects (db : gmap Z PartRow) : list Part := map_to_list db.

(** [base] is the context of the framework's [get_context_data]. *)
Definition get_context_data (base : gmap string ival)
    (starred_parts : list Star) (db : gmap Z PartRow) : gmap string ival :=
  let context := base in
  let context :=
    <["starred" := IParts (part <$> starred_parts)]> context in
  let context :=
    <["to_order" :=
        IParts (filter (λ p : Part, need_to_restock p.2 = true)
                  (filter (λ p : Part, purchaseable p.2 = true) (objects db)))]>
      context in
  let context :=
    <["to_build" :=
        IParts (filter (λ p : Part, need_to_restock p.2 = true)
                  (filter (λ p : Part, buildable p.2 = true) (objects db)))]>
      context in
  context.

End IndexView.

(** ** Properties of the emitted tree, as the specification words them *)

Module TreeSpec.
Import TreeSerializer.

(** The name a node displays. *)
Definition text_of (j : json) : option string :=
  match j with
  | JDict d => match d !! "text" with Some (JStr s) => Some s | _ => None end
  | _ => None
  end.

(** Two sibling nodes in ascending order of their names. *)
Definition text_le (a b : json) : Prop :=
  match text_of a, text_of b with
  | Some s, Some t => String.leb s t
  | _, _ => False
  end.

(** Every list of siblings below a node is ascending by name. *)
Inductive siblings_sorted : json → Prop :=
  | sorted_leaf d :
      d !! "nodes" = None → siblings_sorted (JDict d)
  | sorted_inner d nodes :
      d !! "nodes" = Some (JList nodes) →
      StronglySorted text_le nodes →
      Forall siblings_sorted nodes →
      siblings_sorted (JDict d).

(** [depth db n k]: the record under key [k] lies [n] parent references
    below a top-level record. *)
Inductive depth (db : gmap Z Row) : nat → Z → Prop :=
  | depth_top k r :
      db !! k = Some r → parent r = None → depth db 0 k
  | depth_child n k r p :
      db !! k = Some r → parent r = Some p → depth db n p →
      depth db (S n) k.

(** The four keys every node starts with. *)
Definition node_data (self : View) (item : Item) : gmap string json :=
  {[ "pk" := JInt (id item);
     "text" := JStr (name item.2);
     "href" := JStr (get_absolute_url self item);
     "tags" := JList [JInt (stock_item_count item.2)] ]}.

(** [tree_of self item j]: [j] is the node of [item], with the nodes of the
    children of [item], in ascending order of their names, under ['nodes']
    when there are any. *)
Inductive tree_of (self : View) : Item → json → Prop :=
  | tree_of_node item kids nodes d :
      kids ≡ₚ children (model self) item →
      StronglySorted name_le kids →
      Forall2 (tree_of self) kids nodes →
      d = match kids with
          | [] => node_data self item
          | _ => <["nodes" := JList nodes]> (node_data self item)
          end →
      tree_of self item (JDict d).

(** Sum of the stock counts of the top-level records. *)
Definition top_level_count (db : gmap Z Row) : Z :=
  foldr Z.add 0 ((λ c : Item, stock_item_count c.2) <$> filter_parent_None db).

End TreeSpec.

(** ** The envelope of the Ajax views, in closed form *)

Section envelope.
Context `{TemplateEngine}.
Import AjaxMixin.

(** The envelope [renderJsonResponse] builds from the dictionaries its
    parameters are bound to. *)
Definition rendered_context (form : option Form)
    (context : arg (gmap string cval)) (w : World) : gmap string cval :=
  match form with
  | Some f => <["form" := CForm f]> (bound_context context w)
  | None => bound_context context w
  end.

Definition envelope (self : View) (request : Request) (form : option Form)
    (data : arg (gmap string json)) (context : arg (gmap string cval))
    (w : World) : gmap string json :=
  get_data self ∪
  <["html_form" :=
      JStr (render_to_string (ajax_template_name self)
              (rendered_context form context w) request)]>
    (<["title" := JStr (ajax_form_title self)]> (bound_data data w)).

End envelope.

(** The part of [post] that the create view and the update view share: the
    extra data sent along with the form. *)
Definition posted_data (self : FormView) (form : Form)
    : M (gmap string json) :=
  let data : gmap string json := {[ "form_valid" := JBool (is_valid form) ]} in
  if is_valid form then
    obj ← form_save form;
    let data := <["pk" := JInt (pk obj)]> data in
    try_except
      (url ← lift (get_absolute_url self obj);
       mret (<["url" := JStr url]> data))
      AttributeError
      (mret data)
  else mret data.

(** ** The search page *)

Module SearchView.

Definition template_name : string := "InvenTree/search.html".

(** What [render_to_response] is handed: the template and the context. *)
Record TemplateResponse := {
  response_template : string;
  response_context : gmap string cval
}.

(** [base] is the context of the framework's [get_context_data]. *)
Definition post (base : gmap string cval) (request : Request)
    : TemplateResponse :=
  let context := base in
  let query := default "" (POST request !! "search") in
  let context := <["query" := CJson (JStr query)]> context in
  {| response_template := template_name; response_context := context |}.

End SearchView.

(** ** The records that occur in an emitted tree *)

Module TreeNodes.

(** The key a node carries. *)
Definition pk_of (j : json) : option Z :=
  match j with
  | JDict d => match d !! "pk" with Some (JInt k) => Some k | _ => None end
  | _ => None
  end.

(** [subnode n j]: [n] is [j] or lies below it, through ['nodes'] lists. *)
Inductive subnode (n : json) : json → Prop :=
  | subnode_here : subnode n n
  | subnode_below d nodes m :
      d !! "nodes" = Some (JList nodes) → m ∈ nodes → subnode n m →
      subnode n (JDict d).

(** The record with key [k] has a node in [j]. *)
Definition occurs (k : Z) (j : json) : Prop :=
  ∃ n, subnode n j ∧ pk_of n = Some k.

End TreeNodes.

(** ** Sample data *)

Module Sample.
Import TreeSerializer.

Definition mechanical : Row :=
  {| name := "Mechanical"; parent := None; stock_item_count := 5 |}.
Definition electronics : Row :=
  {| name := "Electronics"; parent := None; stock_item_count := 7 |}.
Definition resistors : Row :=
  {| name := "Resistors"; parent := Some 2; stock_item_count := 3 |}.
Definition capacitors : Row :=
  {| name := "Capacitors"; parent := Some 2; stock_item_count := 4 |}.
Definition smd : Row :=
  {| name := "SMD"; parent := Some 4; stock_item_count := 1 |}.

(** Two top-level categories; the second has two children, one of which has
    a child of its own. *)
Definition categories : gmap Z Row :=
  {[ 1 := mechanical; 2 := electronics; 3 := resistors; 4 := capacitors;
     5 := smd ]}.

Definition category_tree : View :=
  {| model := categories; title := "Categories";
     root_url := default_root_url;
     get_absolute_url := λ _, "/part/category/" |}.

(** A template engine that shows the template name and whether the context
    holds a form. *)
Definition engine : TemplateEngine :=
  {| render_to_string := λ template context _,
       if bool_decide (is_Some (context !! "form"))
       then template +:+ "+form" else template |}.

Definition request : Request := {| GET := ∅; POST := ∅ |}.

(** A form that validates and saves a record under key 7, and one that does
    not validate. *)
Definition good_form : Form :=
  {| is_valid := true; save := λ t, ((7, ∅), <[7 := ∅]> t) |}.
Definition bad_form : Form :=
  {| is_valid := false; save := λ t, ((0, ∅), t) |}.

(** A model with a URL method, and one without. *)
Definition with_url (obj : Obj) : result string := Returns "/part/7/".
Definition without_url (obj : Obj) : result string := Raises AttributeError.
Definition broken_url (obj : Obj) : result string :=
  Raises (OtherError "NoReverseMatch").

(** A process whose table holds one record, under key 7. *)
Definition world : World := initial_world {[ 7 := ∅ ]}.

Definition delete_view : FormView :=
  AjaxDeleteView.subclass "" "Delete part" "delete_obj.html"
    (λ _ _, good_form) (λ _, ∅) with_url.

(** A view whose [get_data] hook sets a title of its own and one more
    key. *)
Definition extended_view : AjaxMixin.View :=
  {| AjaxMixin.ajax_form_action := "";
     AjaxMixin.ajax_form_title := "Edit";
     AjaxMixin.ajax_template_name := "modal_form.html";
     AjaxMixin.get_data := {[ "title" := JStr "Override"; "info" := JInt 1 ]} |}.

Definition qr_view : QRCodeView.Self :=
  {| QRCodeView.view := AjaxMixin.subclass "" "" "qr_code.html";
     QRCodeView.get_qr_data := JStr "{part: 7}" |}.

(** Two categories that name each other as parent: no top-level record. *)
Definition looped : gmap Z Row :=
  {[ 1 := {| name := "A"; parent := Some 2; stock_item_count := 1 |};
     2 := {| name := "B"; parent := Some 1; stock_item_count := 2 |} ]}.

Definition looped_tree : View :=
  {| model := looped; title := "Categories";
     root_url := default_root_url;
     get_absolute_url := λ _, "/part/category/" |}.

Definition create_view : FormView :=
  AjaxCreateView.subclass "" "New part" "create.html"
    (λ _ _, good_form) (λ _, ∅) with_url.

Definition update_view : FormView :=
  AjaxUpdateView.subclass "" "Edit part" "edit.html"
    (λ _ _, good_form) (λ _, ∅) with_url.

(** A create view whose hook always reports a valid form. *)
Definition hooked_create_view : FormView :=
  Build_FormView
    {| AjaxMixin.ajax_form_action := "";
       AjaxMixin.ajax_form_title := "New part";
       AjaxMixin.ajax_template_name := "create.html";
       AjaxMixin.get_data := {[ "form_valid" := JBool true ]} |}
    (λ _ _, bad_form) (λ _, ∅) with_url.

(** A create view whose hook supplies a URL of its own, on a model without
    a URL method. *)
Definition url_hook_view : FormView :=
  Build_FormView
    {| AjaxMixin.ajax_form_action := "";
       AjaxMixin.ajax_form_title := "New part";
       AjaxMixin.ajax_template_name := "create.html";
       AjaxMixin.get_data := {[ "url" := JStr "/from/hook/" ]} |}
    (λ _ _, good_form) (λ _, ∅) without_url.

(** A process with an empty table. *)
Definition empty_world : World := initial_world ∅.

(** A request with a search text in its body and another in its query
    string. *)
Definition search_request : Request :=
  {| GET := {[ "search" := "from the query string" ]};
     POST := {[ "search" := "resistor" ]} |}.

(** Three parts: one to order, one to build, one well stocked. *)
Definition parts : gmap Z IndexView.PartRow :=
  {[ 1 := {| IndexView.purchaseable := true; IndexView.buildable := false;
             IndexView.need_to_restock := true |};
     2 := {| IndexView.purchaseable := false; IndexView.buildable := true;
             IndexView.need_to_restock := true |};
     3 := {| IndexView.purchaseable := true; IndexView.buildable := true;
             IndexView.need_to_restock := false |} ]}.

End Sample.

(** * Theorems *)

(** ** Order on names *)

Lemma ascii_compare_lt_trans a b c :
  Ascii.compare a b = Lt → Ascii.compare b c = Lt → Ascii.compare a c = Lt.
Proof.
  unfold Ascii.compare. rewrite !N.compare_lt_iff. lia.
Qed.

Lemma string_compare_lt_trans s1 : ∀ s2 s3,
  String.compare s1 s2 = Lt → String.compare s2 s3 = Lt →
  String.compare s1 s3 = Lt.
Proof.
  induction s1 as [|a s1 IH]; intros [|b s2] [|c s3]; simpl; try done.
  destruct (Ascii.compare a b) eqn:Hab; try done;
    destruct (Ascii.compare b c) eqn:Hbc; try done.
  - apply Ascii.compare_eq_iff in Hab as ->.
    apply Ascii.compare_eq_iff in Hbc as ->.
    unfold Ascii.compare at 1. rewrite N.compare_refl. apply IH.
  - apply Ascii.compare_eq_iff in Hab as ->. by rewrite Hbc.
  - apply Ascii.compare_eq_iff in Hbc as ->. by rewrite Hab.
  - by rewrite (ascii_compare_lt_trans a b c).
Qed.

Lemma string_leb_trans s1 s2 s3 :
  String.leb s1 s2 → String.leb s2 s3 → String.leb s1 s3.
Proof.
  unfold String.leb.
  destruct (String.compare s1 s2) eqn:H12; try done;
    destruct (String.compare s2 s3) eqn:H23; try done; intros _ _.
  - apply String.compare_eq_iff in H12 as ->. by rewrite H23.
  - apply String.compare_eq_iff in H12 as ->. by rewrite H23.
  - apply String.compare_eq_iff in H23 as ->. by rewrite H12.
  - by rewrite (string_compare_lt_trans s1 s2 s3).
Qed.

Lemma string_leb_total s1 s2 : String.leb s1 s2 ∨ String.leb s2 s1.
Proof.
  destruct (String.leb_total s1 s2) as [->| ->]; [by left|by right].
Qed.

#[local] Instance name_le_total : Total TreeSerializer.name_le.
Proof. intros a b. apply string_leb_total. Qed.

#[local] Instance name_le_trans : Transitive TreeSerializer.name_le.
Proof. intros a b c. apply string_leb_trans. Qed.

Lemma order_by_name_sorted l :
  StronglySorted TreeSerializer.name_le (TreeSerializer.order_by_name l).
Proof. apply (StronglySorted_merge_sort _). Qed.

Lemma order_by_name_perm l : TreeSerializer.order_by_name l ≡ₚ l.
Proof. apply merge_sort_Permutation. Qed.

(** ** The hierarchy stored in the table *)

Section hierarchy.
Import TreeSerializer TreeSpec.
Implicit Types (db : gmap Z Row) (item c : Item).

Lemma objects_lookup db k r : (k, r) ∈ objects db ↔ db !! k = Some r.
Proof. apply elem_of_map_to_list. Qed.

Lemma children_spec db item c :
  c ∈ children db item ↔
  db !! c.1 = Some c.2 ∧ parent c.2 = Some (id item).
Proof.
  unfold children. rewrite list_elem_of_filter.
  destruct c as [k r]. rewrite objects_lookup. simpl. tauto.
Qed.

Lemma top_items_spec db c :
  c ∈ filter_parent_None db ↔ db !! c.1 = Some c.2 ∧ parent c.2 = None.
Proof.
  unfold filter_parent_None. rewrite list_elem_of_filter.
  destruct c as [k r]. rewrite objects_lookup. simpl. tauto.
Qed.

Lemma has_children_spec db item :
  has_children db item = true ↔ children db item ≠ [].
Proof.
  unfold has_children. rewrite bool_decide_eq_true.
  destruct (children db item); simpl; split; (done || lia).
Qed.

Lemma depth_lookup db n k : depth db n k → is_Some (db !! k).
Proof. destruct 1; eauto. Qed.

(** A record has one depth only: its chain of parents is determined. *)
Lemma depth_functional db n k :
  depth db n k → ∀ m, depth db m k → n = m.
Proof.
  induction 1 as [k r Hk Hp|n k r p Hk Hp _ IH];
    intros m Hm; destruct Hm as [k r' Hk' Hp'|m k r' p' Hk' Hp' Hd'];
    simplify_eq; try done.
  f_equal. by apply IH.
Qed.

(** The records on the way up from a record at depth [n] are [n + 1]
    distinct keys of the table. *)
Lemma depth_ancestors db n k :
  depth db n k →
  ∃ X : gset Z, size X = S n ∧ X ⊆ dom db ∧
    ∀ x, x ∈ X → ∃ m, (m ≤ n)%nat ∧ depth db m x.
Proof.
  induction 1 as [k r Hk Hp|n k r p Hk Hp Hd (X & HX & Hdom & Hall)].
  - exists {[ k ]}. split; [by rewrite size_singleton|]. split.
    + apply singleton_subseteq_l, elem_of_dom; eauto.
    + intros x ->%elem_of_singleton. exists 0%nat. split; [done|].
      by eapply depth_top.
  - assert (Hself : depth db (S n) k) by (by eapply depth_child).
    assert (k ∉ X) as Hfresh.
    { intros Hin. destruct (Hall _ Hin) as (m & Hm & Hdm).
      pose proof (depth_functional _ _ _ Hself _ Hdm). lia. }
    exists ({[ k ]} ∪ X). split; [|split].
    + rewrite size_union by set_solver. rewrite size_singleton. lia.
    + apply union_subseteq. split; [|done].
      apply singleton_subseteq_l, elem_of_dom; eauto.
    + intros x [->%elem_of_singleton|Hin]%elem_of_union.
      * exists (S n). split; [done|]. done.
      * destruct (Hall _ Hin) as (m & Hm & Hdm). exists m. split; [lia|done].
Qed.

Lemma depth_bound db n k : depth db n k → (n < size db)%nat.
Proof.
  intros (X & HX & Hdom & _)%depth_ancestors.
  apply subseteq_size in Hdom. rewrite size_dom in Hdom. lia.
Qed.

Lemma depth_children db n item c :
  db !! id item = Some item.2 → depth db n (id item) →
  c ∈ children db item → depth db (S n) c.1.
Proof.
  intros Hitem Hd [Hc Hp]%children_spec. by eapply depth_child.
Qed.

End hierarchy.

(** ** itemToJson *)

Section item_to_json.
Import TreeSerializer TreeSpec.
Implicit Types (self : View) (item c : Item).

Lemma itemToJson_S self fuel item :
  itemToJson self (S fuel) item =
    if has_children (model self) item then
      nodes ← mapM (itemToJson self fuel)
                   (order_by_name (children (model self) item));
      Some (JDict (<["nodes" := JList nodes]> (node_data self item)))
    else Some (JDict (node_data self item)).
Proof. done. Qed.

Lemma node_data_nodes self item : node_data self item !! "nodes" = None.
Proof. unfold node_data. by simplify_map_eq. Qed.

Lemma node_data_text self item :
  node_data self item !! "text" = Some (JStr (name item.2)).
Proof. unfold node_data. by simplify_map_eq. Qed.

(** What a returned node looks like. *)
Lemma itemToJson_inv self fuel item j :
  itemToJson self fuel item = Some j →
  ∃ fuel', fuel = S fuel' ∧
    ((children (model self) item = [] ∧ j = JDict (node_data self item)) ∨
     (children (model self) item ≠ [] ∧
      ∃ nodes,
        Forall2 (λ c n, itemToJson self fuel' c = Some n)
                (order_by_name (children (model self) item)) nodes ∧
        j = JDict (<["nodes" := JList nodes]> (node_data self item)))).
Proof.
  destruct fuel as [|fuel']; [done|]. rewrite itemToJson_S.
  intros Hj. exists fuel'. split; [done|].
  destruct (has_children (model self) item) eqn:Hc.
  - right. apply has_children_spec in Hc. split; [done|].
    destruct (mapM _ _) as [nodes|] eqn:Hm; simplify_eq/=.
    exists nodes. by apply mapM_Some in Hm.
  - left. split; [|by simplify_eq].
    destruct (children (model self) item) eqn:E; [done|].
    assert (has_children (model self) item = true) as Hc'.
    { apply has_children_spec. by rewrite E. }
    congruence.
Qed.

(** More fuel does not change a result. *)
Lemma itemToJson_mono self fuel : ∀ fuel' item j,
  itemToJson self fuel item = Some j → (fuel ≤ fuel')%nat →
  itemToJson self fuel' item = Some j.
Proof.
  induction fuel as [|fuel IH]; intros fuel' item j Hj Hle; [done|].
  destruct fuel' as [|fuel']; [lia|].
  rewrite itemToJson_S in Hj |- *.
  destruct (has_children (model self) item); [|done].
  destruct (mapM (itemToJson self fuel) _) as [nodes|] eqn:Hm; simplify_eq/=.
  apply mapM_Some in Hm.
  assert (mapM (itemToJson self fuel')
            (order_by_name (children (model self) item)) = Some nodes) as ->.
  { apply mapM_Some. eapply Forall2_impl; [done|].
    intros c n Hn. apply IH; [done|lia]. }
  done.
Qed.

(** On a record that hangs below a top-level record the recursion ends:
    fuel for the levels that can still lie below it is enough. *)
Lemma itemToJson_total self fuel : ∀ n item,
  model self !! id item = Some item.2 →
  depth (model self) n (id item) →
  (size (model self) ≤ fuel + n)%nat →
  is_Some (itemToJson self fuel item).
Proof.
  induction fuel as [|fuel IH]; intros n item Hitem Hd Hsz.
  { apply depth_bound in Hd. lia. }
  rewrite itemToJson_S.
  destruct (has_children (model self) item); [|by eexists].
  assert (is_Some (mapM (itemToJson self fuel)
            (order_by_name (children (model self) item)))) as [nodes ->].
  { apply mapM_is_Some, Forall_forall. intros c Hc.
    rewrite order_by_name_perm in Hc.
    apply (IH (S n)).
    - by apply children_spec in Hc as [? _].
    - by eapply depth_children.
    - lia. }
  by eexists.
Qed.

Lemma itemToJson_text self fuel item j :
  itemToJson self fuel item = Some j → text_of j = Some (name item.2).
Proof.
  intros (fuel' & -> & [[_ ->]|(_ & nodes & _ & ->)])%itemToJson_inv; simpl.
  - by rewrite node_data_text.
  - rewrite lookup_insert_ne by done. by rewrite node_data_text.
Qed.

(** A list transformed element by element stays sorted when the transformation
    carries one order to the other. *)
Lemma StronglySorted_Forall2 {A B} (R : relation A) (R' : relation B)
    (P : A → B → Prop) l k :
  (∀ x y x' y', P x x' → P y y' → R x y → R' x' y') →
  Forall2 P l k → StronglySorted R l → StronglySorted R' k.
Proof.
  intros HP. induction 1 as [|x x' l k Hx Hlk IH]; intros Hs; [constructor|].
  apply StronglySorted_inv in Hs as [Hs Hall]. constructor; [by apply IH|].
  clear IH Hs. induction Hlk as [|y y' l k Hy _ IH]; [constructor|].
  apply Forall_cons in Hall as [Hxy Hall]. constructor; [|by apply IH].
  by eapply HP.
Qed.

Lemma itemToJson_nodes_sorted self fuel items nodes :
  Forall2 (λ c n, itemToJson self fuel c = Some n) items nodes →
  StronglySorted name_le items → StronglySorted text_le nodes.
Proof.
  apply StronglySorted_Forall2. intros x y x' y' Hx Hy Hxy.
  unfold text_le. by rewrite (itemToJson_text _ _ _ _ Hx),
    (itemToJson_text _ _ _ _ Hy).
Qed.

(** At every level of a returned node the siblings ascend by name. *)
Lemma itemToJson_sorted self fuel : ∀ item j,
  itemToJson self fuel item = Some j → siblings_sorted j.
Proof.
  induction fuel as [|fuel IH]; intros item j Hj; [done|].
  apply itemToJson_inv in Hj
    as (fuel' & [= <-] & [[_ ->]|(_ & nodes & Hnodes & ->)]).
  - apply sorted_leaf, node_data_nodes.
  - eapply sorted_inner; [by rewrite lookup_insert_eq| |].
    + eapply itemToJson_nodes_sorted; [done|apply order_by_name_sorted].
    + apply Forall_forall. intros n Hn.
      destruct (proj1 (list_elem_of_lookup _ _) Hn) as [i Hi].
      destruct (Forall2_lookup_r _ _ _ _ _ Hnodes Hi) as (c & _ & Hc).
      by eapply IH.
Qed.

(** A returned node is the node of its item, children included. *)
Lemma itemToJson_tree_of self fuel : ∀ item j,
  itemToJson self fuel item = Some j → tree_of self item j.
Proof.
  induction fuel as [|fuel IH]; intros item j Hj; [done|].
  apply itemToJson_inv in Hj
    as (fuel' & [= <-] & [[Hc ->]|(Hc & nodes & Hnodes & ->)]).
  - apply (tree_of_node self item [] []); [by rewrite Hc|constructor..|done].
  - apply (tree_of_node self item
             (order_by_name (children (model self) item)) nodes).
    + apply order_by_name_perm.
    + apply order_by_name_sorted.
    + eapply Forall2_impl; [done|]. intros c n Hn. by apply IH.
    + destruct (order_by_name (children (model self) item)) eqn:E; [|done].
      destruct Hc. apply Permutation_nil_r.
      by rewrite <-(order_by_name_perm (children _ _)), E.
Qed.

End item_to_json.

(** ** TreeSerializer.get *)

Section tree_get.
Import TreeSerializer TreeSpec.
Implicit Types (self : View) (item c : Item).

(** The loop appends one node per item, in order, and adds up the counts. *)
Lemma get_loop_acc self fuel items : ∀ acc n,
  foldl (λ acc item,
           '(nodes, top_count) ← acc;
           node ← itemToJson self fuel item;
           Some (nodes ++ [node], top_count + stock_item_count item.2))
        (Some (acc, n)) items =
  nodes ← mapM (itemToJson self fuel) items;
  Some (acc ++ nodes,
        n + foldr Z.add 0 ((λ c : Item, stock_item_count c.2) <$> items)).
Proof.
  induction items as [|item items IH]; intros acc n; simpl.
  { by rewrite app_nil_r, Z.add_0_r. }
  destruct (itemToJson self fuel item) as [node|]; simpl.
  - rewrite IH. destruct (mapM _ items) as [nodes|]; simpl; [|done].
    by rewrite <-app_assoc, Z.add_assoc.
  - clear IH. induction items as [|? ? IH]; [done|]. by simpl.
Qed.

Lemma get_loop_spec self fuel items :
  get_loop self fuel items =
  nodes ← mapM (itemToJson self fuel) items;
  Some (nodes, foldr Z.add 0 ((λ c : Item, stock_item_count c.2) <$> items)).
Proof. unfold get_loop. by rewrite get_loop_acc. Qed.

Lemma sum_counts_perm (l k : list Item) :
  l ≡ₚ k →
  foldr Z.add 0 ((λ c : Item, stock_item_count c.2) <$> l) =
  foldr Z.add 0 ((λ c : Item, stock_item_count c.2) <$> k).
Proof.
  induction 1 as [|x l k _ IH|x y l|l k m _ IH1 _ IH2]; csimpl;
    [done|by rewrite IH|lia|congruence].
Qed.

(** With fuel for the whole table, every top-level record is serialised. *)
Lemma top_items_total self fuel :
  (size (model self) ≤ fuel)%nat →
  ∃ nodes,
    Forall2 (λ c n, itemToJson self fuel c = Some n)
            (order_by_name (filter_parent_None (model self))) nodes.
Proof.
  intros Hfuel.
  assert (is_Some (mapM (itemToJson self fuel)
            (order_by_name (filter_parent_None (model self)))))
    as [nodes Hnodes].
  { apply mapM_is_Some, Forall_forall. intros c Hc.
    rewrite order_by_name_perm in Hc.
    apply top_items_spec in Hc as [Hc Hp].
    apply (itemToJson_total self fuel 0%nat); [done| |lia].
    by eapply depth_top. }
  exists nodes. by apply mapM_Some.
Qed.

(** The response of [get], for any fuel that covers the table. *)
Lemma get_response self :
  ∃ nodes,
    Forall2 (λ c n, ∃ fuel, itemToJson self fuel c = Some n)
            (order_by_name (filter_parent_None (model self))) nodes ∧
    ∀ fuel, (size (model self) ≤ fuel)%nat →
      get self fuel =
      Some (JsonResponse (JDict {[ "tree" := JList [JDict
        {[ "pk" := JNull;
           "text" := JStr (title self);
           "href" := JStr (root_url self);
           "nodes" := JList nodes;
           "tags" := JList [JInt (top_level_count (model self))] ]} ] ]})).
Proof.
  destruct (top_items_total self (size (model self))) as [nodes Hnodes];
    [done|].
  exists nodes. split.
  { eapply Forall2_impl; [done|]. intros c n Hn.
    by exists (size (model self)). }
  intros fuel Hfuel. unfold get. rewrite get_loop_spec.
  assert (mapM (itemToJson self fuel)
            (order_by_name (filter_parent_None (model self))) = Some nodes)
    as ->.
  { apply mapM_Some. eapply Forall2_impl; [done|].
    intros c n Hn.
    by apply (itemToJson_mono self (size (model self))). }
  simpl. unfold top_level_count.
  by rewrite (sum_counts_perm _ _ (order_by_name_perm _)).
Qed.

End tree_get.

Section tree_claims.
Import TreeSerializer TreeSpec.
Implicit Types (self : View) (item c : Item).

Lemma has_child_record self item :
  children (model self) item ≠ [] ↔
  ∃ k r, model self !! k = Some r ∧ parent r = Some (id item).
Proof.
  split.
  - destruct (children (model self) item) as [|c l] eqn:E; [done|].
    intros _. assert (c ∈ children (model self) item) as Hc.
    { rewrite E. apply list_elem_of_here. }
    apply children_spec in Hc. exists c.1, c.2. done.
  - intros (k & r & Hk & Hp) E.
    assert ((k, r) ∈ children (model self) item) as Hc.
    { by apply children_spec. }
    rewrite E in Hc. by apply not_elem_of_nil in Hc.
Qed.

(** Whenever [itemToJson] returns, the node has a ['nodes'] key exactly
    when some record names the item as its parent, and the key never holds
    an empty list. *)
Lemma itemToJson_nodes_iff self fuel item j :
  itemToJson self fuel item = Some j →
  ∃ d, j = JDict d ∧
    (is_Some (d !! "nodes") ↔
     ∃ k r, model self !! k = Some r ∧ parent r = Some (id item)) ∧
    d !! "nodes" ≠ Some (JList []).
Proof.
  intros (fuel' & -> & [[Hc ->]|(Hc & nodes & Hnodes & ->)])%itemToJson_inv;
    eexists; (split; [done|]); rewrite <-has_child_record.
  - rewrite node_data_nodes. split; [|done].
    split; [by intros []|done].
  - rewrite lookup_insert_eq. split; [done|].
    intros [= ->]. apply Forall2_nil_inv_r in Hnodes.
    apply Hc. apply Permutation_nil_r.
    by rewrite <-(order_by_name_perm (children _ _)), Hnodes.
Qed.

(** C2: the node of a record of the hierarchy (a record that hangs, at any
    depth, below a top-level record) is returned once the fuel covers the
    levels below it; that node carries a ['nodes'] key if and only if the
    record has at least one child record, and a childless record's node
    has no ['nodes'] key; the key never holds an empty list. *)
Theorem itemToJson_nodes_key self n item :
  model self !! id item = Some item.2 →
  depth (model self) n (id item) →
  ∃ d,
    (∀ fuel, (size (model self) ≤ fuel + n)%nat →
       itemToJson self fuel item = Some (JDict d)) ∧
    (is_Some (d !! "nodes") ↔
     ∃ k r, model self !! k = Some r ∧ parent r = Some (id item)) ∧
    ((¬ ∃ k r, model self !! k = Some r ∧ parent r = Some (id item)) →
     d !! "nodes" = None) ∧
    d !! "nodes" ≠ Some (JList []).
Proof.
  intros Hitem Hd.
  destruct (itemToJson_total self (size (model self) - n) n item)
    as [j Hj]; [done|done|lia|].
  destruct (itemToJson_nodes_iff _ _ _ _ Hj) as (d & -> & Hiff & Hne).
  exists d. split; [|split; [done|split; [|done]]].
  - intros fuel Hfuel. eapply itemToJson_mono; [done|lia].
  - intros Hno. destruct (d !! "nodes") eqn:E; [|done].
    destruct Hno. apply Hiff. by eexists.
Qed.

(** C1: the response of [get] is returned for every fuel that covers the
    table; the nodes below its root are the top-level records, ascending by
    name, and in every node below them the ['nodes'] list is ascending by
    name as well: each node is the node of its record, with the nodes of the
    record's children in ascending order of their names. *)
Theorem tree_siblings_ascending self :
  ∃ top nodes,
    (∀ fuel, (size (model self) ≤ fuel)%nat →
       get self fuel =
       Some (JsonResponse (JDict {[ "tree" := JList [JDict top] ]}))) ∧
    top !! "nodes" = Some (JList nodes) ∧
    text_of <$> nodes ≡ₚ
      (λ c : Item, Some (name c.2)) <$> filter_parent_None (model self) ∧
    StronglySorted text_le nodes ∧
    Forall siblings_sorted nodes ∧
    ∃ top_items,
      top_items ≡ₚ filter_parent_None (model self) ∧
      StronglySorted name_le top_items ∧
      Forall2 (tree_of self) top_items nodes.
Proof.
  destruct (get_response self) as (nodes & Hnodes & Hget).
  eexists _, nodes. split; [exact Hget|]. split; [by simplify_map_eq|].
  split; [|split; [|split]].
  4: { exists (order_by_name (filter_parent_None (model self))).
       split; [apply order_by_name_perm|].
       split; [apply order_by_name_sorted|].
       eapply Forall2_impl; [done|]. intros c n [fuel Hn].
       by eapply itemToJson_tree_of. }
  - rewrite <-(order_by_name_perm (filter_parent_None (model self))).
    assert (text_of <$> nodes =
            (λ c : Item, Some (name c.2)) <$>
              order_by_name (filter_parent_None (model self))) as ->; [|done].
    clear Hget.
    induction Hnodes as [|c n l k [fuel Hn] _ IH]; [done|]; csimpl.
    by rewrite IH, (itemToJson_text _ _ _ _ Hn).
  - eapply (StronglySorted_Forall2 name_le); [|done|apply order_by_name_sorted].
    intros x y x' y' [? Hx] [? Hy] Hxy. unfold text_le.
    by rewrite (itemToJson_text _ _ _ _ Hx), (itemToJson_text _ _ _ _ Hy).
  - apply Forall_forall. intros n Hn.
    destruct (proj1 (list_elem_of_lookup _ _) Hn) as [i Hi].
    destruct (Forall2_lookup_r _ _ _ _ _ Hnodes Hi) as (c & _ & fuel & Hc).
    by eapply itemToJson_sorted.
Qed.

(** C3: the synthetic root of the response has [pk] null, and its [tags]
    hold one number, the sum of [stock_item_count] over the records whose
    parent is null. *)
Theorem tree_root_count self :
  ∃ top,
    (∀ fuel, (size (model self) ≤ fuel)%nat →
       get self fuel =
       Some (JsonResponse (JDict {[ "tree" := JList [JDict top] ]}))) ∧
    top !! "pk" = Some JNull ∧
    top !! "tags" = Some (JList [JInt (top_level_count (model self))]).
Proof.
  destruct (get_response self) as (nodes & _ & Hget).
  eexists. split; [exact Hget|]. by simplify_map_eq.
Qed.

End tree_claims.

(** ** renderJsonResponse *)

Section render_json_response.
Context `{TemplateEngine}.
Import AjaxMixin.
Implicit Types (self : View) (fb d : gmap string json) (w : World).

(** The loop over the keys of [fb] leaves [fb]'s value at each of them and
    the old value elsewhere. *)
Lemma update_loop_lookup fb (keys : list string) : ∀ d key,
  foldl (λ d key, from_option (λ v, <[key := v]> d) d (fb !! key)) d keys
    !! key =
  match fb !! key with
  | Some v => if decide (key ∈ keys) then Some v else d !! key
  | None => d !! key
  end.
Proof.
  induction keys as [|k keys IH]; intros d key; cbn [foldl].
  { destruct (fb !! key); [|done].
    by rewrite decide_False by apply not_elem_of_nil. }
  rewrite IH. destruct (fb !! key) as [v|] eqn:Hkey.
  - destruct (decide (k = key)) as [->|Hne].
    + rewrite Hkey; simpl. rewrite lookup_insert_eq.
      rewrite (decide_True (P := key ∈ key :: keys))
        by apply list_elem_of_here.
      by destruct (decide _).
    + assert (from_option (λ v, <[k:=v]> d) d (fb !! k) !! key = d !! key)
        as ->.
      { destruct (fb !! k); simpl; [by rewrite lookup_insert_ne|done]. }
      destruct (decide (key ∈ keys)) as [Hin|Hin].
      * by rewrite decide_True by (by apply list_elem_of_further).
      * rewrite decide_False; [done|].
        intros [?|?]%elem_of_cons; congruence.
  - destruct (fb !! k) eqn:Hk; simpl; [|done].
    rewrite lookup_insert_ne; [done|congruence].
Qed.

(** The merge is the union in which the extension mapping has priority. *)
Lemma update_from_union fb d : update_from fb d = fb ∪ d.
Proof.
  apply map_eq. intros key. unfold update_from.
  rewrite update_loop_lookup, lookup_union.
  destruct (fb !! key) as [v|] eqn:Hkey.
  - rewrite decide_True.
    + by destruct (d !! key).
    + apply elem_of_elements, elem_of_dom. eauto.
  - by destruct (d !! key).
Qed.

Lemma renderJsonResponse_eq self request form data context w :
  renderJsonResponse self request form data context w =
  (store_context context (rendered_context form context w)
     (store_data data (envelope self request form data context w) w),
   Returns (JsonResponse (JDict (envelope self request form data context w)))).
Proof.
  unfold renderJsonResponse, envelope, rendered_context.
  rewrite update_from_union. by destruct form.
Qed.

Lemma envelope_lookup_ext self request form data context w key v :
  get_data self !! key = Some v →
  envelope self request form data context w !! key = Some v.
Proof. intros Hkey. unfold envelope. by apply lookup_union_Some_l. Qed.

Lemma envelope_lookup_own self request form data context w key :
  get_data self !! key = None →
  envelope self request form data context w !! key =
  (<["html_form" :=
      JStr (render_to_string (ajax_template_name self)
              (rendered_context form context w) request)]>
    (<["title" := JStr (ajax_form_title self)]> (bound_data data w))) !! key.
Proof. intros Hkey. unfold envelope. by apply lookup_union_r. Qed.

(** C8: the response always comes back, and its envelope holds, at every
    key, the value of the [get_data()] mapping when that mapping has the
    key, and otherwise the value the data had once ['title'] and
    ['html_form'] were set; so the extension wins every collision, those on
    ['title'] and ['html_form'] included. *)
Theorem renderJsonResponse_extension_wins
    self request form data context w :
  ∃ w' env,
    renderJsonResponse self request form data context w =
      (w', Returns (JsonResponse (JDict env))) ∧
    (∀ key v, get_data self !! key = Some v → env !! key = Some v) ∧
    (∀ v, get_data self !! "title" = Some v → env !! "title" = Some v) ∧
    (∀ v, get_data self !! "html_form" = Some v →
          env !! "html_form" = Some v) ∧
    (∀ key, get_data self !! key = None →
       env !! key =
       (<["html_form" :=
           JStr (render_to_string (ajax_template_name self)
                   (rendered_context form context w) request)]>
         (<["title" := JStr (ajax_form_title self)]> (bound_data data w)))
         !! key).
Proof.
  eexists _, _. split; [apply renderJsonResponse_eq|].
  split; [|split; [|split]].
  - intros key v. apply envelope_lookup_ext.
  - intros v. apply envelope_lookup_ext.
  - intros v. apply envelope_lookup_ext.
  - intros key. apply envelope_lookup_own.
Qed.

End render_json_response.

(** ** The create and update views *)

Section form_views.
Context `{TemplateEngine}.
Implicit Types (self : FormView) (form : Form) (w : World).

Lemma create_post_unfold self request :
  AjaxCreateView.post self request =
  (data ← posted_data self (get_form self request None);
   AjaxMixin.renderJsonResponse self request
     (Some (get_form self request None)) (Passed data) Omitted).
Proof. done. Qed.

Lemma update_post_unfold self request key :
  AjaxUpdateView.post self request key =
  (object ← get_object key;
   data ← posted_data self (get_form self request (Some object));
   AjaxMixin.renderJsonResponse self request
     (Some (get_form self request (Some object))) (Passed data) Omitted).
Proof. done. Qed.

Lemma posted_data_invalid self form w :
  is_valid form = false →
  posted_data self form w = (w, Returns {[ "form_valid" := JBool false ]}).
Proof. intros Hv. unfold posted_data. by rewrite Hv. Qed.

Lemma posted_data_url self form w obj t url :
  is_valid form = true → save form (table w) = (obj, t) →
  get_absolute_url self obj = Returns url →
  posted_data self form w =
  (set_table t w,
   Returns (<["url" := JStr url]>
              (<["pk" := JInt (pk obj)]> {[ "form_valid" := JBool true ]}))).
Proof.
  intros Hv Hs Hu. unfold posted_data. rewrite Hv.
  unfold mbind, M_bind, form_save, try_except, lift. by rewrite Hs, Hu.
Qed.

Lemma posted_data_no_url self form w obj t :
  is_valid form = true → save form (table w) = (obj, t) →
  get_absolute_url self obj = Raises AttributeError →
  posted_data self form w =
  (set_table t w,
   Returns (<["pk" := JInt (pk obj)]> {[ "form_valid" := JBool true ]})).
Proof.
  intros Hv Hs Hu. unfold posted_data. rewrite Hv.
  unfold mbind, M_bind, form_save, try_except, lift. by rewrite Hs, Hu.
Qed.

Lemma posted_data_raises self form w obj t e :
  is_valid form = true → save form (table w) = (obj, t) →
  get_absolute_url self obj = Raises e → e ≠ AttributeError →
  posted_data self form w = (set_table t w, Raises e).
Proof.
  intros Hv Hs Hu He. unfold posted_data. rewrite Hv.
  unfold mbind, M_bind, form_save, try_except, lift. rewrite Hs, Hu.
  by rewrite bool_decide_eq_false_2.
Qed.

Lemma bind_returns {A B} (m : M A) (f : A → M B) w w' a :
  m w = (w', Returns a) → (m ≫= f) w = f a w'.
Proof. intros Hm. unfold mbind, M_bind. by rewrite Hm. Qed.

Lemma bind_raises {A B} (m : M A) (f : A → M B) w w' e :
  m w = (w', Raises e) → (m ≫= f) w = (w', Raises e).
Proof. intros Hm. unfold mbind, M_bind. by rewrite Hm. Qed.

Lemma get_object_found key row w :
  table w !! key = Some row → get_object key w = (w, Returns (key, row)).
Proof. intros Hk. unfold get_object. by rewrite Hk. Qed.

Lemma get_object_missing key w :
  table w !! key = None → get_object key w = (w, Raises Http404).
Proof. intros Hk. unfold get_object. by rewrite Hk. Qed.

End form_views.

Section form_view_claims.
Context `{TemplateEngine}.
Implicit Types (self : FormView) (form : Form) (w : World).

(** With the inherited [get_data], the envelope is the data with ['title']
    and ['html_form'] set. *)
Lemma envelope_inherited (self : AjaxMixin.View) request
    (given : option Form) data context w :
  AjaxMixin.get_data self = ∅ →
  envelope self request given data context w =
  <["html_form" :=
      JStr (render_to_string (AjaxMixin.ajax_template_name self)
              (rendered_context given context w) request)]>
    (<["title" := JStr (AjaxMixin.ajax_form_title self)]>
       (AjaxMixin.bound_data data w)).
Proof. intros Hfb. unfold envelope. rewrite Hfb. apply (left_id_L ∅ (∪)). Qed.

(** The response to a form post, once the extra data is known. *)
Lemma render_posted (self : AjaxMixin.View) request form data w :
  AjaxMixin.renderJsonResponse self request (Some form) (Passed data) Omitted w =
  (set_default_context (<["form" := CForm form]> (default_context w)) w,
   Returns (JsonResponse (JDict
     (envelope self request (Some form) (Passed data) Omitted w)))).
Proof. by rewrite renderJsonResponse_eq. Qed.

(** C4, with the side condition the hook forces: in a create view whose
    [get_data()] mapping binds neither ['form_valid'] nor ['pk'], a POST with
    a form that validates saves it and answers with [form_valid] true and the
    key of the saved record under ['pk'] (unless the URL method of the record
    raises something other than [AttributeError], which then propagates);
    with a form that does not validate it saves nothing, raises nothing and
    answers with [form_valid] false and no ['pk'] key. *)
Theorem create_post_form_valid (self : FormView) request w :
  let form := get_form self request None in
  AjaxMixin.get_data self !! "form_valid" = None →
  AjaxMixin.get_data self !! "pk" = None →
  (is_valid form = true →
   ∀ obj t, save form (table w) = (obj, t) →
     (∀ e, get_absolute_url self obj = Raises e → e = AttributeError) →
     ∃ w' env,
       AjaxCreateView.post self request w =
         (w', Returns (JsonResponse (JDict env))) ∧
       table w' = t ∧
       env !! "form_valid" = Some (JBool true) ∧
       env !! "pk" = Some (JInt (pk obj))) ∧
  (is_valid form = true →
   ∀ obj t e, save form (table w) = (obj, t) →
     get_absolute_url self obj = Raises e → e ≠ AttributeError →
     AjaxCreateView.post self request w = (set_table t w, Raises e)) ∧
  (is_valid form = false →
   ∃ w' env,
     AjaxCreateView.post self request w =
       (w', Returns (JsonResponse (JDict env))) ∧
     table w' = table w ∧
     env !! "form_valid" = Some (JBool false) ∧
     env !! "pk" = None).
Proof.
  intros form Hfv Hpk. split; [|split].
  - intros Hv obj t Hs Hurl. rewrite create_post_unfold.
    destruct (get_absolute_url self obj) as [u|e] eqn:Hu.
    + erewrite bind_returns by (by eapply posted_data_url).
      rewrite render_posted. eexists _, _. split; [done|]. split; [done|].
      rewrite !envelope_lookup_own by done. by simplify_map_eq.
    + rewrite (Hurl e eq_refl) in Hu.
      erewrite bind_returns by (by eapply posted_data_no_url).
      rewrite render_posted. eexists _, _. split; [done|]. split; [done|].
      rewrite !envelope_lookup_own by done. by simplify_map_eq.
  - intros Hv obj t e Hs Hu He. rewrite create_post_unfold.
    by erewrite bind_raises by (by eapply posted_data_raises).
  - intros Hv. rewrite create_post_unfold.
    erewrite bind_returns by (by eapply posted_data_invalid).
    rewrite render_posted. eexists _, _. split; [done|]. split; [done|].
    rewrite !envelope_lookup_own by done. by simplify_map_eq.
Qed.

End form_view_claims.

Section url_claims.
Context `{TemplateEngine}.

(** What the shared part of [post] leaves under ['url'], when the hook does
    not bind that key. *)
Lemma posted_url (self : FormView) request form w obj t :
  AjaxMixin.get_data self !! "url" = None →
  is_valid form = true → save form (table w) = (obj, t) →
  (get_absolute_url self obj = Raises AttributeError →
   ∃ w' env,
     (data ← posted_data self form;
      AjaxMixin.renderJsonResponse self request (Some form) (Passed data)
        Omitted) w = (w', Returns (JsonResponse (JDict env))) ∧
     env !! "url" = None) ∧
  (∀ u, get_absolute_url self obj = Returns u →
   ∃ w' env,
     (data ← posted_data self form;
      AjaxMixin.renderJsonResponse self request (Some form) (Passed data)
        Omitted) w = (w', Returns (JsonResponse (JDict env))) ∧
     env !! "url" = Some (JStr u)).
Proof.
  intros Hfb Hv Hs. split.
  - intros Hu. erewrite bind_returns by (by eapply posted_data_no_url).
    rewrite render_posted. eexists _, _. split; [done|].
    rewrite envelope_lookup_own by done. by simplify_map_eq.
  - intros u Hu. erewrite bind_returns by (by eapply posted_data_url).
    rewrite render_posted. eexists _, _. split; [done|].
    rewrite envelope_lookup_own by done. by simplify_map_eq.
Qed.

(** C5, with the side condition the hook forces: in a create view and in an
    update view whose [get_data()] mapping does not bind ['url'], after a
    successful save, a URL method that raises [AttributeError] leaves the
    envelope without a ['url'] key and the response is returned all the
    same; a URL method that returns puts its result under ['url']. *)
Theorem post_url_optional (create update : FormView) request key row w :
  AjaxMixin.get_data create !! "url" = None →
  AjaxMixin.get_data update !! "url" = None →
  (∀ obj t,
     is_valid (get_form create request None) = true →
     save (get_form create request None) (table w) = (obj, t) →
     (get_absolute_url create obj = Raises AttributeError →
      ∃ w' env,
        AjaxCreateView.post create request w =
          (w', Returns (JsonResponse (JDict env))) ∧
        env !! "url" = None) ∧
     (∀ u, get_absolute_url create obj = Returns u →
      ∃ w' env,
        AjaxCreateView.post create request w =
          (w', Returns (JsonResponse (JDict env))) ∧
        env !! "url" = Some (JStr u))) ∧
  (table w !! key = Some row →
   ∀ obj t,
     is_valid (get_form update request (Some (key, row))) = true →
     save (get_form update request (Some (key, row))) (table w) = (obj, t) →
     (get_absolute_url update obj = Raises AttributeError →
      ∃ w' env,
        AjaxUpdateView.post update request key w =
          (w', Returns (JsonResponse (JDict env))) ∧
        env !! "url" = None) ∧
     (∀ u, get_absolute_url update obj = Returns u →
      ∃ w' env,
        AjaxUpdateView.post update request key w =
          (w', Returns (JsonResponse (JDict env))) ∧
        env !! "url" = Some (JStr u))).
Proof.
  intros Hcreate Hupdate. split.
  - intros obj t Hv Hs. rewrite create_post_unfold.
    by apply (posted_url create request _ w obj t).
  - intros Hrow obj t Hv Hs. rewrite update_post_unfold.
    rewrite (bind_returns _ _ _ _ _ (get_object_found _ _ _ Hrow)).
    by apply (posted_url update request _ w obj t).
Qed.

Lemma delete_envelope_dom (fb : gmap string json) (h t i d : json) :
  dom (fb ∪ <["html_form" := h]> (<["title" := t]>
               {[ "id" := i; "delete" := d ]})) =
  {[ "id"; "delete"; "title"; "html_form" ]} ∪ dom fb.
Proof.
  rewrite dom_union_L, !dom_insert_L, dom_singleton_L.
  apply set_eq. intros x. set_unfold. tauto.
Qed.

(** C6, as the code has it: a POST to any delete view on a record that
    exists deletes it, whatever the request holds, and returns; the envelope
    is the [get_data()] mapping laid over the record's key under ['id'],
    [true] under ['delete'] and the ['title'] and ['html_form'] that
    [renderJsonResponse] sets. So it always has those four keys, next to the
    hook's; ['id'] and ['delete'] hold the key and [true] unless the hook
    binds them; and with a hook that binds nothing the keys are exactly the
    four. *)
Theorem delete_post_envelope (self : FormView) request key row w :
  table w !! key = Some row →
  ∃ w' env,
    AjaxDeleteView.post self request key w =
      (w', Returns (JsonResponse (JDict env))) ∧
    table w' !! key = None ∧
    env =
      AjaxMixin.get_data self ∪
      <["html_form" :=
          JStr (render_to_string (AjaxMixin.ajax_template_name self)
                  (default_context w) request)]>
        (<["title" := JStr (AjaxMixin.ajax_form_title self)]>
           {[ "id" := JInt key; "delete" := JBool true ]}) ∧
    (AjaxMixin.get_data self !! "id" = None →
     env !! "id" = Some (JInt key)) ∧
    (AjaxMixin.get_data self !! "delete" = None →
     env !! "delete" = Some (JBool true)) ∧
    dom env =
      {[ "id"; "delete"; "title"; "html_form" ]} ∪
      dom (AjaxMixin.get_data self) ∧
    (AjaxMixin.get_data self = ∅ →
     dom env = {[ "id"; "delete"; "title"; "html_form" ]}).
Proof.
  intros Hrow. unfold AjaxDeleteView.post.
  rewrite (bind_returns _ _ _ _ _ (get_object_found _ _ _ Hrow)).
  unfold delete_obj, modify, mbind at 1, M_bind at 1.
  rewrite renderJsonResponse_eq. unfold envelope, rendered_context.
  eexists _, _. split; [done|]. simpl.
  split; [apply lookup_delete_eq|]. split; [done|].
  split; [|split; [|split]].
  - intros Hid. rewrite lookup_union_r by done. by simplify_map_eq.
  - intros Hdel. rewrite lookup_union_r by done. by simplify_map_eq.
  - apply delete_envelope_dom.
  - intros Hfb. rewrite delete_envelope_dom, Hfb, dom_empty_L.
    apply (right_id_L ∅ (∪)).
Qed.

End url_claims.

(** ** The QR code view *)

Section qr_view.
Context `{TemplateEngine}.

(** C7: when [get_qr_data()] returns a value that counts as true, the
    context holds it under ['qr_data'] and has no ['error_msg']; when it
    returns [None], an empty string or another value that counts as false,
    the context holds the error message under ['error_msg'] and has no
    ['qr_data']; and [get] returns its response in both cases, for every
    route that supplies the [pk] parameter. *)
Theorem qr_context_key (self : QRCodeView.Self) :
  let qr := QRCodeView.get_qr_data self in
  let context := QRCodeView.get_context_data self in
  (truthy qr = true →
     context !! "qr_data" = Some (CJson qr) ∧ context !! "error_msg" = None) ∧
  (truthy qr = false →
     context !! "error_msg" = Some (CJson (JStr "Error generating QR code")) ∧
     context !! "qr_data" = None) ∧
  (∀ s, qr = JStr s → s ≠ "" → context !! "qr_data" = Some (CJson (JStr s))) ∧
  (qr = JNull ∨ qr = JStr "" → context !! "qr_data" = None) ∧
  (∀ request kwargs w, is_Some (kwargs !! "pk") →
     ∃ w' env,
       QRCodeView.get self request kwargs w =
         (w', Returns (JsonResponse (JDict env))) ∧
       (AjaxMixin.get_data (QRCodeView.view self) !! "html_form" = None →
        env !! "html_form" =
        Some (JStr (render_to_string
                      (AjaxMixin.ajax_template_name (QRCodeView.view self))
                      context request)))).
Proof.
  intros qr context.
  assert (truthy qr = true →
    context !! "qr_data" = Some (CJson qr) ∧ context !! "error_msg" = None)
    as Htrue.
  { intros Hq. unfold context, QRCodeView.get_context_data. fold qr.
    rewrite Hq. by simplify_map_eq. }
  assert (truthy qr = false →
    context !! "error_msg" = Some (CJson (JStr "Error generating QR code")) ∧
    context !! "qr_data" = None) as Hfalse.
  { intros Hq. unfold context, QRCodeView.get_context_data. fold qr.
    rewrite Hq. by simplify_map_eq. }
  split; [done|]. split; [done|]. split; [|split].
  - intros s Hs Hne. rewrite <-Hs. apply Htrue. rewrite Hs. simpl.
    destruct s; [done|done].
  - intros [Hq|Hq]; apply Hfalse; by rewrite Hq.
  - intros request kwargs w [v Hpk]. unfold QRCodeView.get. rewrite Hpk.
    rewrite renderJsonResponse_eq. eexists _, _. split; [done|].
    intros Hfb. rewrite envelope_lookup_own by done.
    by rewrite lookup_insert_eq.
Qed.

End qr_view.

(** ** The index page *)

Section index_view.
Import IndexView.

(** C9: ['to_order'] lists, once each, the parts of the table that are
    purchaseable and need restocking, and nothing else; ['to_build'] does
    the same with the buildable parts. *)
Theorem index_restock_lists base stars (db : gmap Z PartRow) :
  let context := get_context_data base stars db in
  ∃ to_order to_build,
    context !! "to_order" = Some (IParts to_order) ∧
    context !! "to_build" = Some (IParts to_build) ∧
    NoDup to_order ∧ NoDup to_build ∧
    (∀ p : Part, p ∈ to_order ↔
       db !! p.1 = Some p.2 ∧
       purchaseable p.2 = true ∧ need_to_restock p.2 = true) ∧
    (∀ p : Part, p ∈ to_build ↔
       db !! p.1 = Some p.2 ∧
       buildable p.2 = true ∧ need_to_restock p.2 = true).
Proof.
  intros context. eexists _, _.
  split; [unfold context, get_context_data; by simplify_map_eq|].
  split; [unfold context, get_context_data; by simplify_map_eq|].
  split; [by do 2 apply NoDup_filter; apply NoDup_map_to_list|].
  split; [by do 2 apply NoDup_filter; apply NoDup_map_to_list|].
  split; intros [k r]; rewrite !list_elem_of_filter; unfold objects;
    pose proof (elem_of_map_to_list db k r); simpl; tauto.
Qed.

End index_view.

(** ** The default dictionaries *)

Section shared_defaults.
Context `{TemplateEngine}.
Import AjaxMixin.

(** A call that passes both dictionaries leaves the defaults alone. *)
Lemma renderJsonResponse_passed (self : View) request form d c w :
  (renderJsonResponse self request form (Passed d) (Passed c) w).1 = w.
Proof. by rewrite renderJsonResponse_eq. Qed.

(** C10: a call that omits [data] and [context] writes into the two default
    dictionaries: afterwards the default data is the whole envelope of the
    call (title, rendered form and extension keys included) and the default
    context holds the form of the call. The next call that omits them
    starts from those dictionaries, not from empty ones: its envelope
    repeats every key of the earlier envelope that it does not set itself,
    and its template is rendered with the earlier form still in the
    context. *)
Theorem renderJsonResponse_shares_defaults
    (self1 self2 : View) request1 request2 form1 w :
  ∃ w1 env1 w2 env2,
    renderJsonResponse self1 request1 form1 Omitted Omitted w =
      (w1, Returns (JsonResponse (JDict env1))) ∧
    renderJsonResponse self2 request2 None Omitted Omitted w1 =
      (w2, Returns (JsonResponse (JDict env2))) ∧
    default_data w1 = env1 ∧
    default_data w2 = env2 ∧
    (∀ key v, get_data self1 !! key = Some v →
       default_data w1 !! key = Some v) ∧
    (∀ f, form1 = Some f →
       default_context w1 !! "form" = Some (CForm f) ∧
       default_context w2 !! "form" = Some (CForm f)) ∧
    (∀ key, get_data self2 !! key = None →
       key ≠ "title" → key ≠ "html_form" → env2 !! key = env1 !! key) ∧
    (get_data self2 !! "html_form" = None →
       env2 !! "html_form" =
       Some (JStr (render_to_string (ajax_template_name self2)
                     (default_context w1) request2))).
Proof.
  eexists _, _, _, _. split; [apply renderJsonResponse_eq|].
  split; [apply renderJsonResponse_eq|]. simpl.
  split; [done|]. split; [done|]. split; [|split; [|split]].
  - intros key v. apply envelope_lookup_ext.
  - intros f ->. simpl. by rewrite lookup_insert_eq.
  - intros key Hkey Ht Hf. rewrite envelope_lookup_own by done.
    by rewrite !lookup_insert_ne by done.
  - intros Hfb. rewrite envelope_lookup_own by done.
    by rewrite lookup_insert_eq.
Qed.

End shared_defaults.

(** ** The theorems at the sample data *)

Section samples.
Import Sample.
#[local] Existing Instance engine.

(** The sample tree, serialised with fuel for its five records. *)
Lemma tree_siblings_ascending_sample :
  ∃ top nodes,
    TreeSerializer.get category_tree 5 =
      Some (JsonResponse (JDict {[ "tree" := JList [JDict top] ]})) ∧
    top !! "nodes" = Some (JList nodes) ∧
    TreeSpec.text_of <$> nodes ≡ₚ [Some "Mechanical"; Some "Electronics"] ∧
    StronglySorted TreeSpec.text_le nodes ∧
    Forall TreeSpec.siblings_sorted nodes.
Proof.
  destruct (tree_siblings_ascending category_tree)
    as (top & nodes & Hget & Hnodes & Hperm & Hsorted & Hall & _).
  exists top, nodes. split; [apply Hget; vm_compute; lia|].
  split; [done|]. split; [|done].
  rewrite Hperm. vm_compute. apply perm_swap.
Defined.

(** The node of "Electronics", a top-level record with two children, and
    the node of "Mechanical", which has none. *)
Lemma itemToJson_nodes_key_sample :
  (∃ d,
     TreeSerializer.itemToJson category_tree 5 (2, electronics) =
       Some (JDict d) ∧
     is_Some (d !! "nodes")) ∧
  (∃ d,
     TreeSerializer.itemToJson category_tree 5 (1, mechanical) =
       Some (JDict d) ∧
     d !! "nodes" = None).
Proof.
  split.
  - destruct (itemToJson_nodes_key category_tree 0 (2, electronics))
      as (d & Hfuel & Hiff & _).
    + reflexivity.
    + by eapply TreeSpec.depth_top.
    + exists d. split.
      * apply Hfuel. vm_compute. lia.
      * apply Hiff. by exists 3, resistors.
  - destruct (itemToJson_nodes_key category_tree 0 (1, mechanical))
      as (d & Hfuel & _ & Hnone & _).
    + reflexivity.
    + by eapply TreeSpec.depth_top.
    + exists d. split.
      * apply Hfuel. vm_compute. lia.
      * apply Hnone. intros (k & r & Hk & Hp).
        assert (Forall (λ c : TreeSerializer.Item,
                  TreeSerializer.parent c.2 ≠ Some 1)
                  (map_to_list categories)) as Hall.
        { vm_compute. repeat (constructor; [discriminate|]). constructor. }
        apply elem_of_map_to_list in Hk.
        by apply (proj1 (Forall_forall _ _) Hall _ Hk).
Defined.

(** The root of the sample tree counts 5 + 7, not the 20 of all records. *)
Lemma tree_root_count_sample :
  ∃ top,
    TreeSerializer.get category_tree 5 =
      Some (JsonResponse (JDict {[ "tree" := JList [JDict top] ]})) ∧
    top !! "pk" = Some JNull ∧
    top !! "tags" = Some (JList [JInt 12]).
Proof.
  destruct (tree_root_count category_tree) as (top & Hget & Hpk & Htags).
  exists top. split; [|done].
  apply Hget. vm_compute. lia.
Defined.

(** A valid and an invalid form posted to a create view on an empty table,
    and a valid form on a model whose URL method fails for another reason. *)
Lemma create_post_form_valid_sample :
  table empty_world !! 7 = None ∧
  (∃ w' env,
     AjaxCreateView.post
       (AjaxCreateView.subclass "" "New part" "create.html"
          (λ _ _, good_form) (λ _, ∅) with_url) request empty_world =
       (w', Returns (JsonResponse (JDict env))) ∧
     table w' = {[ 7 := ∅ ]} ∧
     env !! "form_valid" = Some (JBool true) ∧
     env !! "pk" = Some (JInt 7)) ∧
  AjaxCreateView.post
    (AjaxCreateView.subclass "" "New part" "create.html"
       (λ _ _, good_form) (λ _, ∅) broken_url) request empty_world =
    (set_table {[ 7 := ∅ ]} empty_world,
     Raises (OtherError "NoReverseMatch")) ∧
  (∃ w' env,
     AjaxCreateView.post
       (AjaxCreateView.subclass "" "New part" "create.html"
          (λ _ _, bad_form) (λ _, ∅) with_url) request empty_world =
       (w', Returns (JsonResponse (JDict env))) ∧
     table w' = table empty_world ∧
     env !! "form_valid" = Some (JBool false) ∧
     env !! "pk" = None).
Proof.
  split; [reflexivity|]. split; [|split].
  - apply (proj1 (create_post_form_valid
                    (AjaxCreateView.subclass "" "New part" "create.html"
                       (λ _ _, good_form) (λ _, ∅) with_url)
                    request empty_world eq_refl eq_refl)
             eq_refl (7, ∅) {[ 7 := ∅ ]} eq_refl).
    intros e He. discriminate He.
  - apply (proj1 (proj2 (create_post_form_valid
                    (AjaxCreateView.subclass "" "New part" "create.html"
                       (λ _ _, good_form) (λ _, ∅) broken_url)
                    request empty_world eq_refl eq_refl))
             eq_refl (7, ∅) {[ 7 := ∅ ]}
             (OtherError "NoReverseMatch") eq_refl eq_refl).
    discriminate.
  - apply (proj2 (proj2 (create_post_form_valid
                    (AjaxCreateView.subclass "" "New part" "create.html"
                       (λ _ _, bad_form) (λ _, ∅) with_url)
                    request empty_world eq_refl eq_refl))
             eq_refl).
Defined.

(** The claim as worded fails on a create view whose hook binds
    ['form_valid']: the form does not validate, and the envelope says it
    did. *)
Lemma create_post_invalid_reported_valid :
  is_valid (get_form hooked_create_view request None) = false ∧
  (∃ w' env,
     AjaxCreateView.post hooked_create_view request world =
       (w', Returns (JsonResponse (JDict env))) ∧
     env !! "form_valid" = Some (JBool true)) ∧
  ¬ ∃ w' env,
      AjaxCreateView.post hooked_create_view request world =
        (w', Returns (JsonResponse (JDict env))) ∧
      env !! "form_valid" = Some (JBool false).
Proof.
  split; [reflexivity|]. split.
  - eexists _, _. split; [vm_compute; reflexivity|]. vm_compute. reflexivity.
  - intros (w' & env & Hpost & Hfalse).
    assert (∀ w r,
              AjaxCreateView.post hooked_create_view request world = (w, r) →
              match r with
              | Returns (JsonResponse (JDict env)) =>
                  env !! "form_valid" = Some (JBool true)
              | _ => False
              end) as Htrue.
    { intros w r. vm_compute. by intros [= <- <-]. }
    specialize (Htrue _ _ Hpost). simpl in Htrue.
    rewrite Hfalse in Htrue. discriminate Htrue.
Qed.

(** The create view and the update view, each on a model without a URL
    method and on a model with one. *)
Lemma post_url_optional_sample :
  (∃ w' env,
     AjaxCreateView.post
       (AjaxCreateView.subclass "" "New part" "create.html"
          (λ _ _, good_form) (λ _, ∅) without_url) request world =
       (w', Returns (JsonResponse (JDict env))) ∧
     env !! "url" = None) ∧
  (∃ w' env,
     AjaxCreateView.post create_view request world =
       (w', Returns (JsonResponse (JDict env))) ∧
     env !! "url" = Some (JStr "/part/7/")) ∧
  (∃ w' env,
     AjaxUpdateView.post
       (AjaxUpdateView.subclass "" "Edit part" "edit.html"
          (λ _ _, good_form) (λ _, ∅) without_url) request 7 world =
       (w', Returns (JsonResponse (JDict env))) ∧
     env !! "url" = None) ∧
  (∃ w' env,
     AjaxUpdateView.post update_view request 7 world =
       (w', Returns (JsonResponse (JDict env))) ∧
     env !! "url" = Some (JStr "/part/7/")).
Proof.
  split; [|split; [|split]].
  - apply (proj1 (proj1 (post_url_optional
                    (AjaxCreateView.subclass "" "New part" "create.html"
                       (λ _ _, good_form) (λ _, ∅) without_url)
                    update_view request 7 ∅ world eq_refl eq_refl)
             (7, ∅) (<[7 := ∅]> (table world)) eq_refl eq_refl) eq_refl).
  - apply (proj2 (proj1 (post_url_optional create_view update_view
                    request 7 ∅ world eq_refl eq_refl)
             (7, ∅) (<[7 := ∅]> (table world)) eq_refl eq_refl)
             "/part/7/" eq_refl).
  - apply (proj1 (proj2 (post_url_optional create_view
                    (AjaxUpdateView.subclass "" "Edit part" "edit.html"
                       (λ _ _, good_form) (λ _, ∅) without_url)
                    request 7 ∅ world eq_refl eq_refl)
             eq_refl (7, ∅) (<[7 := ∅]> (table world)) eq_refl eq_refl)
             eq_refl).
  - apply (proj2 (proj2 (post_url_optional create_view update_view
                    request 7 ∅ world eq_refl eq_refl)
             eq_refl (7, ∅) (<[7 := ∅]> (table world)) eq_refl eq_refl)
             "/part/7/" eq_refl).
Defined.

(** The claim as worded fails on a create view whose hook binds ['url']: the
    URL method of the saved record raises [AttributeError], and the envelope
    has a ['url'] all the same, the hook's. *)
Lemma create_post_url_from_hook :
  is_valid (get_form url_hook_view request None) = true ∧
  get_absolute_url url_hook_view (7, ∅) = Raises AttributeError ∧
  (∃ w' env,
     AjaxCreateView.post url_hook_view request world =
       (w', Returns (JsonResponse (JDict env))) ∧
     env !! "url" = Some (JStr "/from/hook/")) ∧
  ¬ ∃ w' env,
      AjaxCreateView.post url_hook_view request world =
        (w', Returns (JsonResponse (JDict env))) ∧
      env !! "url" = None.
Proof.
  split; [reflexivity|]. split; [reflexivity|]. split.
  - eexists _, _. split; [vm_compute; reflexivity|]. vm_compute. reflexivity.
  - intros (w' & env & Hpost & Hnone).
    assert (∀ w r,
              AjaxCreateView.post url_hook_view request world = (w, r) →
              match r with
              | Returns (JsonResponse (JDict env)) =>
                  env !! "url" = Some (JStr "/from/hook/")
              | _ => False
              end) as Hurl.
    { intros w r. vm_compute. by intros [= <- <-]. }
    specialize (Hurl _ _ Hpost). simpl in Hurl.
    rewrite Hnone in Hurl. discriminate Hurl.
Qed.

(** Deleting the record of the sample process, with a view that inherits
    the hook and with one that binds a title and one more key. *)
Lemma delete_post_envelope_sample :
  (∃ w' env,
     AjaxDeleteView.post delete_view request 7 world =
       (w', Returns (JsonResponse (JDict env))) ∧
     table w' !! 7 = None ∧
     env !! "id" = Some (JInt 7) ∧
     env !! "delete" = Some (JBool true) ∧
     dom env = {[ "id"; "delete"; "title"; "html_form" ]}) ∧
  (∃ w' env,
     AjaxDeleteView.post
       (Build_FormView extended_view (λ _ _, good_form) (λ _, ∅) with_url)
       request 7 world =
       (w', Returns (JsonResponse (JDict env))) ∧
     table w' !! 7 = None ∧
     env !! "id" = Some (JInt 7) ∧
     env !! "delete" = Some (JBool true)).
Proof.
  split.
  - destruct (delete_post_envelope delete_view request 7 ∅ world eq_refl)
      as (w' & env & Hpost & Hgone & _ & Hid & Hdel & _ & Hdom).
    exists w', env. split; [done|]. split; [done|].
    split; [by apply Hid|]. split; [by apply Hdel|]. by apply Hdom.
  - destruct (delete_post_envelope
                (Build_FormView extended_view (λ _ _, good_form) (λ _, ∅)
                   with_url) request 7 ∅ world eq_refl)
      as (w' & env & Hpost & Hgone & _ & Hid & Hdel & _).
    exists w', env. split; [done|]. split; [done|].
    split; [by apply Hid|by apply Hdel].
Defined.

(** The claim as worded fails: the envelope of a delete is not the
    dictionary with just ['id'] and ['delete'], it has a ['title'] and an
    ['html_form'] too. *)
Lemma delete_post_not_two_keys :
  (¬ ∃ w',
     AjaxDeleteView.post delete_view request 7 world =
       (w', Returns (JsonResponse (JDict
          {[ "id" := JInt 7; "delete" := JBool true ]})))) ∧
  ∃ w' env,
    AjaxDeleteView.post delete_view request 7 world =
      (w', Returns (JsonResponse (JDict env))) ∧
    env !! "title" = Some (JStr "Delete part") ∧
    env !! "html_form" = Some (JStr "delete_obj.html").
Proof.
  split.
  - intros [w' Hpost].
    assert (∀ w r, AjaxDeleteView.post delete_view request 7 world = (w, r) →
              match r with
              | Returns (JsonResponse (JDict env)) =>
                  env !! "title" = Some (JStr "Delete part")
              | _ => False
              end) as Htitle.
    { intros w r. vm_compute. by intros [= <- <-]. }
    specialize (Htitle _ _ Hpost). simpl in Htitle.
    vm_compute in Htitle. discriminate Htitle.
  - eexists _, _. split; [vm_compute; reflexivity|].
    split; vm_compute; reflexivity.
Qed.

(** A hook that returns a text, and the hook of the class itself. *)
Lemma qr_context_key_sample :
  (QRCodeView.get_context_data qr_view !! "qr_data" =
     Some (CJson (JStr "{part: 7}")) ∧
   QRCodeView.get_context_data qr_view !! "error_msg" = None) ∧
  (QRCodeView.get_context_data QRCodeView.cls !! "error_msg" =
     Some (CJson (JStr "Error generating QR code")) ∧
   QRCodeView.get_context_data QRCodeView.cls !! "qr_data" = None) ∧
  QRCodeView.get_context_data qr_view !! "qr_data" =
    Some (CJson (JStr "{part: 7}")) ∧
  QRCodeView.get_context_data QRCodeView.cls !! "qr_data" = None ∧
  ∃ w' env,
    QRCodeView.get qr_view request {[ "pk" := JInt 7 ]} world =
      (w', Returns (JsonResponse (JDict env))) ∧
    env !! "html_form" = Some (JStr "qr_code.html").
Proof.
  split; [|split; [|split; [|split]]].
  - apply (proj1 (qr_context_key qr_view) eq_refl).
  - apply (proj1 (proj2 (qr_context_key QRCodeView.cls)) eq_refl).
  - apply (proj1 (proj2 (proj2 (qr_context_key qr_view)))
             "{part: 7}" eq_refl).
    discriminate.
  - apply (proj1 (proj2 (proj2 (proj2 (qr_context_key QRCodeView.cls))))).
    by left.
  - destruct (proj2 (proj2 (proj2 (proj2 (qr_context_key qr_view))))
                request {[ "pk" := JInt 7 ]} world)
      as (w' & env & Hget & Hhtml).
    + by exists (JInt 7).
    + exists w', env. split; [done|]. by rewrite Hhtml.
Defined.

(** A hook that sets ['title'] itself. *)
Lemma renderJsonResponse_extension_wins_sample :
  ∃ w' env,
    AjaxMixin.renderJsonResponse extended_view request None
      (Passed {[ "title" := JStr "Passed"; "info" := JInt 0;
                 "id" := JInt 7 ]}) Omitted world =
      (w', Returns (JsonResponse (JDict env))) ∧
    env !! "title" = Some (JStr "Override") ∧
    env !! "info" = Some (JInt 1) ∧
    env !! "id" = Some (JInt 7) ∧
    env !! "html_form" = Some (JStr "modal_form.html").
Proof.
  destruct (renderJsonResponse_extension_wins extended_view request None
              (Passed {[ "title" := JStr "Passed"; "info" := JInt 0;
                         "id" := JInt 7 ]}) Omitted world)
    as (w' & env & Hr & Hext & Htitle & _ & Hown).
  exists w', env. split; [done|]. split; [|split; [|split]].
  - by apply Htitle.
  - by apply Hext.
  - by rewrite Hown.
  - by rewrite Hown.
Defined.

(** A form view with the hook above, then a plain view, both leaving the
    dictionaries to their defaults: the second envelope still has the
    ['info'] key of the first, the default context still has the form, and
    the plain view is rendered with it. *)
Lemma renderJsonResponse_shares_defaults_sample :
  ∃ w1 env1 w2 env2,
    AjaxMixin.renderJsonResponse extended_view request (Some good_form)
      Omitted Omitted world = (w1, Returns (JsonResponse (JDict env1))) ∧
    AjaxMixin.renderJsonResponse AjaxView.cls request None
      Omitted Omitted w1 = (w2, Returns (JsonResponse (JDict env2))) ∧
    env2 !! "info" = Some (JInt 1) ∧
    default_context w2 !! "form" = Some (CForm good_form) ∧
    env2 !! "html_form" = Some (JStr "modal_form.html+form").
Proof.
  destruct (renderJsonResponse_shares_defaults extended_view AjaxView.cls
              request request (Some good_form) world)
    as (w1 & env1 & w2 & env2 & H1 & H2 & Hd1 & _ & Hext & Hform & Hkeep
        & Hhtml).
  exists w1, env1, w2, env2. split; [done|]. split; [done|].
  split; [|split].
  - rewrite Hkeep by done. rewrite <-Hd1. by apply Hext.
  - by apply (Hform good_form).
  - rewrite Hhtml by done. f_equal. f_equal. simpl.
    destruct (Hform good_form eq_refl) as [Hf _].
    by rewrite bool_decide_eq_true_2 by (by rewrite Hf).
Defined.

(** The index page over the sample parts. *)
Lemma index_restock_lists_sample :
  ∃ to_order to_build,
    IndexView.get_context_data ∅ [] parts !! "to_order" =
      Some (IndexView.IParts to_order) ∧
    IndexView.get_context_data ∅ [] parts !! "to_build" =
      Some (IndexView.IParts to_build) ∧
    (∀ row, (1, row) ∈ to_order ↔ parts !! 1 = Some row) ∧
    (∀ row, (3, row) ∉ to_order) ∧
    (∀ row, (2, row) ∈ to_build ↔ parts !! 2 = Some row).
Proof.
  destruct (index_restock_lists ∅ [] parts)
    as (to_order & to_build & Ho & Hb & _ & _ & Horder & Hbuild).
  exists to_order, to_build. split; [done|]. split; [done|].
  split; [|split].
  - intros row. rewrite Horder. simpl. split; [tauto|].
    intros Hrow. split; [done|]. by injection Hrow as <-.
  - intros row. rewrite Horder. simpl. intros (Hrow & _ & Hneed).
    injection Hrow as <-. discriminate Hneed.
  - intros row. rewrite Hbuild. simpl. split; [tauto|].
    intros Hrow. split; [done|]. by injection Hrow as <-.
Defined.

End samples.

(** * Further properties of the views *)

(** ** The tree serializer *)

Section tree_more.
Import TreeSerializer TreeSpec TreeNodes.
Implicit Types (self : View) (item c : Item).

Lemma itemToJson_pk self fuel item j :
  itemToJson self fuel item = Some j → pk_of j = Some (id item).
Proof.
  intros (fuel' & -> & [[_ ->]|(_ & nodes & _ & ->)])%itemToJson_inv;
    unfold pk_of, node_data; by simplify_map_eq.
Qed.

Lemma subnode_trans n m j : subnode n m → subnode m j → subnode n j.
Proof.
  intros Hnm. induction 1 as [|d nodes m' Hd Hin _ IH]; [done|].
  by eapply subnode_below.
Qed.

(** The node of a child record sits in the ['nodes'] list of its parent's
    node. *)
Lemma itemToJson_child self fuel item j c :
  itemToJson self fuel item = Some j → c ∈ children (model self) item →
  ∃ fuel' n, itemToJson self fuel' c = Some n ∧ subnode n j.
Proof.
  intros Hj Hc. apply itemToJson_inv in Hj
    as (fuel' & -> & [[Hnil _]|(_ & nodes & Hnodes & ->)]).
  { rewrite Hnil in Hc. by apply not_elem_of_nil in Hc. }
  rewrite <-(order_by_name_perm (children _ _)) in Hc.
  apply list_elem_of_lookup in Hc as [i Hi].
  destruct (Forall2_lookup_l _ _ _ _ _ Hnodes Hi) as (n & Hn & Hcn).
  exists fuel', n. split; [done|].
  eapply subnode_below; [by rewrite lookup_insert_eq| |apply subnode_here].
  apply list_elem_of_lookup. eauto.
Qed.

(** Every node below the node of a record of the hierarchy is itself the
    node of a record of the hierarchy. *)
Lemma subnode_is_node self fuel : ∀ item j m n,
  itemToJson self fuel item = Some j →
  model self !! id item = Some item.2 → depth (model self) m (id item) →
  subnode n j →
  ∃ fuel' item' m',
    itemToJson self fuel' item' = Some n ∧ depth (model self) m' (id item').
Proof.
  induction fuel as [|fuel IH]; intros item j m n Hj Hitem Hd Hsub; [done|].
  inversion Hsub as [|d nodes n' Hnodes Hin Hbelow Heq]; subst.
  { by exists (S fuel), item, m. }
  apply itemToJson_inv in Hj
    as (fuel' & [= <-] & [[_ [= ->]]|(_ & nodes' & Hall & [= ->])]).
  { by rewrite node_data_nodes in Hnodes. }
  rewrite lookup_insert_eq in Hnodes. injection Hnodes as <-.
  apply list_elem_of_lookup in Hin as [i Hi].
  destruct (Forall2_lookup_r _ _ _ _ _ Hall Hi) as (c & Hc & Hcn).
  assert (c ∈ children (model self) item) as Hchild.
  { rewrite <-(order_by_name_perm (children _ _)).
    apply list_elem_of_lookup. eauto. }
  apply (IH c n' (S m) n Hcn).
  - by apply children_spec in Hchild as [? _].
  - by eapply depth_children.
  - done.
Qed.

(** X1: the tree holds a node for exactly the records that reach a top-level
    record through their parent references: such a record occurs below one
    of the root's nodes, and a record whose chain of parents loops or leaves
    the table occurs nowhere. *)
Theorem tree_holds_reachable_records self :
  ∃ top nodes,
    (∀ fuel, (size (model self) ≤ fuel)%nat →
       get self fuel =
       Some (JsonResponse (JDict {[ "tree" := JList [JDict top] ]}))) ∧
    top !! "nodes" = Some (JList nodes) ∧
    ∀ k, (∃ t, t ∈ nodes ∧ occurs k t) ↔ ∃ m, depth (model self) m k.
Proof.
  destruct (get_response self) as (nodes & Hnodes & Hget).
  eexists _, nodes. split; [exact Hget|]. split; [by simplify_map_eq|].
  clear Hget. intros k. split.
  - intros (t & Ht & n & Hsub & Hpk).
    apply list_elem_of_lookup in Ht as [i Hi].
    destruct (Forall2_lookup_r _ _ _ _ _ Hnodes Hi) as (c & Hc & fuel & Hct).
    assert (c ∈ filter_parent_None (model self)) as Hctop.
    { rewrite <-(order_by_name_perm (filter_parent_None _)).
      apply list_elem_of_lookup. eauto. }
    apply top_items_spec in Hctop as [Hclook Hcp].
    destruct (subnode_is_node self fuel c t 0%nat n Hct Hclook) as
      (fuel' & item' & m' & Hn & Hd'); [by eapply depth_top|done|].
    apply itemToJson_pk in Hn. rewrite Hpk in Hn. injection Hn as ->.
    by exists m'.
  - intros [m Hd].
    assert (∃ r t fuel n, model self !! k = Some r ∧ t ∈ nodes ∧
              itemToJson self fuel (k, r) = Some n ∧ subnode n t)
      as (r & t & fuel & n & _ & Ht & Hn & Hsub).
    { induction Hd as [k r Hk Hp|m k r p Hk Hp Hd IH].
      - assert ((k, r) ∈ order_by_name (filter_parent_None (model self)))
          as Hin.
        { rewrite order_by_name_perm. by apply top_items_spec. }
        apply list_elem_of_lookup in Hin as [i Hi].
        destruct (Forall2_lookup_l _ _ _ _ _ Hnodes Hi)
          as (t & Ht & fuel & Hkt).
        exists r, t, fuel, t. split; [done|]. split.
        { apply list_elem_of_lookup. eauto. }
        split; [done|apply subnode_here].
      - destruct IH as (rp & t & fuel & np & Hp' & Ht & Hnp & Hsub).
        destruct (itemToJson_child self fuel (p, rp) np (k, r) Hnp)
          as (fuel' & n & Hn & Hsub'); [by apply children_spec|].
        exists r, t, fuel', n. split; [done|]. split; [done|].
        split; [done|]. by eapply subnode_trans. }
    exists t. split; [done|]. exists n. split; [done|].
    by apply itemToJson_pk in Hn.
Qed.

(** X2: when no record has a null parent (the table is empty, or every record
    hangs in a loop of parents), [get] answers without any recursion, for any
    fuel: the root has an empty ['nodes'] list, which a leaf never has, and a
    count of zero. *)
Theorem tree_without_top_level self fuel :
  (∀ k r, model self !! k = Some r → parent r ≠ None) →
  get self fuel =
  Some (JsonResponse (JDict {[ "tree" := JList [JDict
    {[ "pk" := JNull;
       "text" := JStr (title self);
       "href" := JStr (root_url self);
       "nodes" := JList [];
       "tags" := JList [JInt 0] ]} ] ]})).
Proof.
  intros Hnone.
  assert (filter_parent_None (model self) = []) as Hempty.
  { destruct (filter_parent_None (model self)) as [|c l] eqn:E; [done|].
    assert (c ∈ filter_parent_None (model self)) as Hc.
    { rewrite E. apply list_elem_of_here. }
    apply top_items_spec in Hc as [Hc Hp]. by destruct (Hnone _ _ Hc). }
  unfold get. rewrite get_loop_spec, Hempty. done.
Qed.

(** X3: the node of a record of the hierarchy carries the record's own key,
    name, URL and stock count (the count is not summed over the children,
    unlike the root's), its ['nodes'] list, when it has one, names exactly
    the child records, and it has no other key. *)
Theorem itemToJson_node_fields self n item :
  model self !! id item = Some item.2 →
  depth (model self) n (id item) →
  ∃ d,
    (∀ fuel, (size (model self) ≤ fuel + n)%nat →
       itemToJson self fuel item = Some (JDict d)) ∧
    d !! "pk" = Some (JInt (id item)) ∧
    d !! "text" = Some (JStr (name item.2)) ∧
    d !! "href" = Some (JStr (get_absolute_url self item)) ∧
    d !! "tags" = Some (JList [JInt (stock_item_count item.2)]) ∧
    (∀ nodes, d !! "nodes" = Some (JList nodes) →
       text_of <$> nodes ≡ₚ
         (λ c : Item, Some (name c.2)) <$> children (model self) item) ∧
    dom d ⊆ {[ "pk"; "text"; "href"; "tags"; "nodes" ]}.
Proof.
  intros Hitem Hd.
  destruct (itemToJson_total self (size (model self) - n) n item)
    as [j Hj]; [done|done|lia|].
  destruct (itemToJson_inv _ _ _ _ Hj)
    as (fuel' & Hfuel & [[Hc ->]|(Hc & nodes & Hnodes & ->)]).
  - exists (node_data self item).
    split; [intros fuel ?; eapply itemToJson_mono; [done|lia]|].
    unfold node_data. do 4 (split; [by simplify_map_eq|]).
    split; [intros nodes; by simplify_map_eq|].
    rewrite !dom_insert_L, dom_singleton_L. set_unfold. tauto.
  - eexists.
    split; [intros fuel ?; eapply itemToJson_mono; [done|lia]|].
    unfold node_data. do 4 (split; [by simplify_map_eq|]).
    split.
    + intros nodes'. rewrite lookup_insert_eq. intros [= <-].
      rewrite <-(order_by_name_perm (children _ _)).
      assert (text_of <$> nodes =
              (λ c : Item, Some (name c.2)) <$>
                order_by_name (children (model self) item)) as ->; [|done].
      clear Hj Hc. induction Hnodes as [|c m l k Hm _ IH]; [done|]; csimpl.
      by rewrite IH, (itemToJson_text _ _ _ _ Hm).
    + rewrite !dom_insert_L, dom_singleton_L. set_unfold. tauto.
Qed.

End tree_more.

(** ** The mixin *)

Section mixin_more.
Context `{TemplateEngine}.
Import AjaxMixin.

(** X4: [get_param] reads the body parameters only when the method is
    exactly ['POST'] and the query string for every other method string; a
    name that neither holds gives [None], never an error. *)
Theorem get_param_source request name method :
  (method = "POST" → get_param request name method = POST request !! name) ∧
  (method ≠ "POST" → get_param request name method = GET request !! name) ∧
  (GET request !! name = None → POST request !! name = None →
   get_param request name method = None).
Proof.
  unfold get_param. split; [|split].
  - intros ->. by rewrite String.eqb_refl.
  - intros Hne. by rewrite (proj2 (String.eqb_neq _ _) Hne).
  - intros Hg Hp. by destruct (String.eqb method "POST").
Qed.

(** X5: the envelope never loses a key: its keys are ['title'] and
    ['html_form'], the keys of the data the call is bound to and the keys of
    the [get_data()] mapping. *)
Theorem renderJsonResponse_keys
    (self : View) request form data context w :
  ∃ w' env,
    renderJsonResponse self request form data context w =
      (w', Returns (JsonResponse (JDict env))) ∧
    dom env =
      {[ "title"; "html_form" ]} ∪ dom (bound_data data w) ∪
      dom (get_data self).
Proof.
  eexists _, _. split; [apply renderJsonResponse_eq|].
  unfold envelope. rewrite dom_union_L, !dom_insert_L.
  set_unfold. intros x. tauto.
Qed.

(** X6: [renderJsonResponse] never touches the table; a dictionary that is
    passed shields the default one from the call, and without a form the
    default context stays as it is. *)
Theorem renderJsonResponse_frame
    (self : View) request form data context w :
  let w' := (renderJsonResponse self request form data context w).1 in
  table w' = table w ∧
  (∀ d, data = Passed d → default_data w' = default_data w) ∧
  (∀ c, context = Passed c → default_context w' = default_context w) ∧
  (form = None → default_context w' = default_context w).
Proof.
  rewrite renderJsonResponse_eq. simpl.
  split; [by destruct data, context|]. split; [|split].
  - intros d ->. by destruct context.
  - intros c ->. by destruct data.
  - intros ->. by destruct context, data.
Qed.

End mixin_more.

(** ** The views on one record *)

Section views_more.
Context `{TemplateEngine}.

(** The shared part of [post] writes to the table only. *)
Lemma posted_data_defaults (self : FormView) form w w' r :
  posted_data self form w = (w', r) →
  default_data w' = default_data w ∧ default_context w' = default_context w.
Proof.
  unfold posted_data, mbind, M_bind, form_save, try_except, lift, mret, M_ret.
  destruct (is_valid form); [|by intros [= <- _]].
  destruct (save form (table w)) as [obj t].
  destruct (get_absolute_url self obj) as [u|e]; [by intros [= <- _]|].
  destruct (bool_decide (e = AttributeError)); by intros [= <- _].
Qed.

(** X8: the QR view without a [pk] in the route raises [KeyError] and leaves
    the process alone; with one it returns, never touches the table or the
    default context, and, as it omits [data], keeps every key an earlier
    call left in the default data and leaves its own envelope there. *)
Theorem qr_get_effects (self : QRCodeView.Self) request kwargs w :
  (kwargs !! "pk" = None →
   QRCodeView.get self request kwargs w = (w, Raises KeyError)) ∧
  (is_Some (kwargs !! "pk") →
   ∃ w' env,
     QRCodeView.get self request kwargs w =
       (w', Returns (JsonResponse (JDict env))) ∧
     table w' = table w ∧
     default_context w' = default_context w ∧
     default_data w' = env ∧
     dom (default_data w) ⊆ dom env).
Proof.
  unfold QRCodeView.get. split.
  - by intros ->.
  - intros [v ->]. rewrite renderJsonResponse_eq.
    eexists _, _. split; [done|]. simpl. do 3 (split; [done|]).
    unfold envelope. rewrite dom_union_L, !dom_insert_L. simpl.
    set_unfold. intros x. tauto.
Qed.

(** X9: a GET to the create view saves nothing; it puts the unbound form
    into the default context, renders the template with it and leaves its
    envelope in the default data. *)
Theorem create_get_effects (self : FormView) request w :
  let form := get_form self request None in
  ∃ w' env,
    AjaxCreateView.get self request w =
      (w', Returns (JsonResponse (JDict env))) ∧
    table w' = table w ∧
    default_context w' = <["form" := CForm form]> (default_context w) ∧
    default_data w' = env ∧
    (AjaxMixin.get_data self !! "html_form" = None →
     env !! "html_form" =
     Some (JStr (render_to_string (AjaxMixin.ajax_template_name self)
                   (<["form" := CForm form]> (default_context w)) request))).
Proof.
  intros form. unfold AjaxCreateView.get. rewrite renderJsonResponse_eq.
  eexists _, _. split; [done|]. do 3 (split; [done|]).
  intros Hfb. rewrite envelope_lookup_own by done.
  by rewrite lookup_insert_eq.
Qed.

(** X10: a GET or a POST to the update view or to the delete view for a key
    that the table does not hold raises the not-found failure and leaves the
    whole process, table and default dictionaries, as it was. *)
Theorem missing_record_not_found (self : FormView) request key w :
  table w !! key = None →
  AjaxUpdateView.get self request key w = (w, Raises Http404) ∧
  AjaxUpdateView.post self request key w = (w, Raises Http404) ∧
  AjaxDeleteView.get self request key w = (w, Raises Http404) ∧
  AjaxDeleteView.post self request key w = (w, Raises Http404).
Proof.
  intros Hkey. pose proof (get_object_missing key w Hkey) as Hobj.
  unfold AjaxUpdateView.get, AjaxUpdateView.post, AjaxDeleteView.get,
    AjaxDeleteView.post.
  by rewrite !(bind_raises _ _ _ _ _ Hobj).
Qed.

(** X11: a POST to the update view for a record of the table, with a form
    that validates, saves it and answers with [form_valid] true and the key
    of the saved record under ['pk'] (unless the URL method raises something
    other than [AttributeError], which propagates); with a form that does
    not validate it saves nothing and answers with [form_valid] false and
    no ['pk']. *)
Theorem update_post_form_valid
    action title template getform context url request key row w :
  let self := AjaxUpdateView.subclass action title template getform context url in
  let form := getform request (Some (key, row)) in
  table w !! key = Some row →
  (is_valid form = true →
   ∀ obj t, save form (table w) = (obj, t) →
     (∀ e, url obj = Raises e → e = AttributeError) →
     ∃ w' env,
       AjaxUpdateView.post self request key w =
         (w', Returns (JsonResponse (JDict env))) ∧
       table w' = t ∧
       env !! "form_valid" = Some (JBool true) ∧
       env !! "pk" = Some (JInt (id obj))) ∧
  (is_valid form = true →
   ∀ obj t e, save form (table w) = (obj, t) →
     url obj = Raises e → e ≠ AttributeError →
     AjaxUpdateView.post self request key w = (set_table t w, Raises e)) ∧
  (is_valid form = false →
   ∃ w' env,
     AjaxUpdateView.post self request key w =
       (w', Returns (JsonResponse (JDict env))) ∧
     table w' = table w ∧
     env !! "form_valid" = Some (JBool false) ∧
     env !! "pk" = None).
Proof.
  intros self form Hrow. rewrite update_post_unfold.
  rewrite (bind_returns _ _ _ _ _ (get_object_found _ _ _ Hrow)).
  fold form. split; [|split].
  - intros Hv obj t Hs Hurl.
    destruct (url obj) as [u|e] eqn:Hu.
    + erewrite bind_returns by (by eapply posted_data_url).
      rewrite render_posted. eexists _, _. split; [done|]. split; [done|].
      rewrite envelope_inherited by done. by simplify_map_eq.
    + rewrite (Hurl e eq_refl) in Hu.
      erewrite bind_returns by (by eapply posted_data_no_url).
      rewrite render_posted. eexists _, _. split; [done|]. split; [done|].
      rewrite envelope_inherited by done. by simplify_map_eq.
  - intros Hv obj t e Hs Hu He.
    by erewrite bind_raises by (by eapply posted_data_raises).
  - intros Hv.
    erewrite bind_returns by (by eapply posted_data_invalid).
    rewrite render_posted. eexists _, _. split; [done|]. split; [done|].
    rewrite envelope_inherited by done. by simplify_map_eq.
Qed.

(** X12: a GET to the update view for a record of the table saves nothing
    and leaves the default context alone: the template is rendered with the
    framework's context for that record plus the form built on it. *)
Theorem update_get_effects (self : FormView) request key row w :
  table w !! key = Some row →
  let object : Obj := (key, row) in
  ∃ w' env,
    AjaxUpdateView.get self request key w =
      (w', Returns (JsonResponse (JDict env))) ∧
    table w' = table w ∧
    default_context w' = default_context w ∧
    (AjaxMixin.get_data self !! "html_form" = None →
     env !! "html_form" =
     Some (JStr (render_to_string (AjaxMixin.ajax_template_name self)
                   (<["form" := CForm (get_form self request (Some object))]>
                      (get_context_data self (Some object))) request))).
Proof.
  intros Hrow object. unfold AjaxUpdateView.get.
  rewrite (bind_returns _ _ _ _ _ (get_object_found _ _ _ Hrow)).
  rewrite renderJsonResponse_eq.
  eexists _, _. split; [done|]. do 2 (split; [done|]).
  intros Hfb. rewrite envelope_lookup_own by done.
  by rewrite lookup_insert_eq.
Qed.

End views_more.

(** ** The delete view *)

Section delete_more.
Context `{TemplateEngine}.

(** X13: a GET to the delete view for a record of the table deletes nothing
    and changes nothing in the process; its envelope is built without
    [renderJsonResponse], so it has the four keys ['id'], ['delete'] (false),
    ['title'] and ['html_data'], no ['html_form'], and nothing of the
    [get_data()] mapping. *)
Theorem delete_get_envelope (self : FormView) request key row w :
  table w !! key = Some row →
  ∃ env,
    AjaxDeleteView.get self request key w =
      (w, Returns (JsonResponse (JDict env))) ∧
    env !! "id" = Some (JInt key) ∧
    env !! "delete" = Some (JBool false) ∧
    env !! "title" = Some (JStr (AjaxMixin.ajax_form_title self)) ∧
    env !! "html_data" =
      Some (JStr (render_to_string (AjaxMixin.ajax_template_name self)
                    (get_context_data self (Some (key, row))) request)) ∧
    env !! "html_form" = None ∧
    dom env = {[ "id"; "delete"; "title"; "html_data" ]}.
Proof.
  intros Hrow. unfold AjaxDeleteView.get.
  rewrite !(bind_returns _ _ _ _ _ (get_object_found _ _ _ Hrow)).
  eexists. split; [done|].
  do 5 (split; [by simplify_map_eq|]).
  rewrite !dom_insert_L, dom_singleton_L.
  apply set_eq. intros x. set_unfold. tauto.
Qed.

(** The state a delete leaves, and its response. *)
Lemma delete_post_found (self : FormView) request key row w :
  table w !! key = Some row →
  AjaxDeleteView.post self request key w =
  AjaxMixin.renderJsonResponse self request None
    (Passed {[ "id" := JInt key; "delete" := JBool true ]}) Omitted
    (set_table (delete key (table w)) w).
Proof.
  intros Hrow. unfold AjaxDeleteView.post.
  by rewrite (bind_returns _ _ _ _ _ (get_object_found _ _ _ Hrow)).
Qed.

(** X14: a delete cannot be repeated: after a POST that deleted a record, a
    second POST for the same key raises the not-found failure and changes
    nothing. *)
Theorem delete_post_twice (self : FormView) request request' key row w :
  table w !! key = Some row →
  ∃ w1 response,
    AjaxDeleteView.post self request key w = (w1, Returns response) ∧
    AjaxDeleteView.post self request' key w1 = (w1, Raises Http404).
Proof.
  intros Hrow. rewrite (delete_post_found _ _ _ _ _ Hrow).
  rewrite renderJsonResponse_eq. eexists _, _. split; [done|].
  unfold AjaxDeleteView.post. erewrite bind_raises; [done|].
  apply get_object_missing. simpl. apply lookup_delete_eq.
Qed.

(** X16: the form of a create POST outlives its request: it stays in the
    default context, and a later POST to a delete view, which passes no form
    and no context, renders its template with that form in the context. *)
Theorem create_form_reaches_delete
    (create delete_view : FormView) request request' key row w w1 response :
  AjaxCreateView.post create request w = (w1, Returns response) →
  table w1 !! key = Some row →
  AjaxMixin.get_data delete_view !! "html_form" = None →
  default_context w1 !! "form" = Some (CForm (get_form create request None)) ∧
  ∃ w2 env,
    AjaxDeleteView.post delete_view request' key w1 =
      (w2, Returns (JsonResponse (JDict env))) ∧
    env !! "html_form" =
      Some (JStr (render_to_string (AjaxMixin.ajax_template_name delete_view)
                    (default_context w1) request')) ∧
    default_context w2 !! "form" =
      Some (CForm (get_form create request None)).
Proof.
  intros Hpost Hrow Hfb.
  assert (default_context w1 !! "form" =
          Some (CForm (get_form create request None))) as Hform.
  { rewrite create_post_unfold in Hpost.
    destruct (posted_data create (get_form create request None) w)
      as [w0 [data|e]] eqn:Hdata.
    - rewrite (bind_returns _ _ _ _ _ Hdata), render_posted in Hpost.
      injection Hpost as <- _. simpl. by rewrite lookup_insert_eq.
    - by rewrite (bind_raises _ _ _ _ _ Hdata) in Hpost. }
  split; [done|].
  rewrite (delete_post_found _ _ _ _ _ Hrow), renderJsonResponse_eq.
  eexists _, _. split; [done|]. split; [|done].
  rewrite envelope_lookup_own by done. by rewrite lookup_insert_eq.
Qed.

(** X17: in a create view whose [get_data()] hook binds ['form_valid'], the
    envelope reports the hook's value, whatever the form says; without that
    key in the hook it reports the form's own validity. *)
Theorem create_post_form_valid_hook
    (self : FormView) request w w' env :
  AjaxCreateView.post self request w =
    (w', Returns (JsonResponse (JDict env))) →
  env !! "form_valid" =
  Some (default (JBool (is_valid (get_form self request None)))
          (AjaxMixin.get_data self !! "form_valid")).
Proof.
  rewrite create_post_unfold. set (form := get_form self request None).
  intros Hpost.
  destruct (posted_data self form w) as [w0 [data|e]] eqn:Hdata;
    [|by rewrite (bind_raises _ _ _ _ _ Hdata) in Hpost].
  rewrite (bind_returns _ _ _ _ _ Hdata), render_posted in Hpost.
  injection Hpost as _ <-.
  assert (data !! "form_valid" = Some (JBool (is_valid form))) as Hvalid.
  { revert Hdata. unfold posted_data, mbind, M_bind, form_save, try_except,
      lift, mret, M_ret.
    destruct (is_valid form); [|intros [= _ <-]; by simplify_map_eq].
    destruct (save form (table w)) as [obj t].
    destruct (get_absolute_url self obj) as [u|e];
      [intros [= _ <-]; by simplify_map_eq|].
    destruct (bool_decide (e = AttributeError)); [|done].
    intros [= _ <-]. by simplify_map_eq. }
  destruct (AjaxMixin.get_data self !! "form_valid") as [v|] eqn:Hfb; simpl.
  - by apply envelope_lookup_ext.
  - rewrite envelope_lookup_own by done.
    by rewrite !lookup_insert_ne by done.
Qed.

End delete_more.

(** ** The page views *)

Section pages_more.

(** X18: the index page keeps every key of the framework's context except
    the three it sets, ['starred'], ['to_order'] and ['to_build'], which it
    always overwrites; ['starred'] lists the parts of the user's stars in
    their order. *)
Theorem index_context_keys base stars (db : gmap Z IndexView.PartRow) :
  let context := IndexView.get_context_data base stars db in
  context !! "starred" =
    Some (IndexView.IParts (IndexView.part <$> stars)) ∧
  (∀ key, key ≠ "starred" → key ≠ "to_order" → key ≠ "to_build" →
     context !! key = base !! key) ∧
  dom context = {[ "starred"; "to_order"; "to_build" ]} ∪ dom base.
Proof.
  intros context. unfold context, IndexView.get_context_data.
  split; [by simplify_map_eq|]. split.
  - intros key ? ? ?. by rewrite !lookup_insert_ne by done.
  - rewrite !dom_insert_L. apply set_eq. intros x. set_unfold. tauto.
Qed.

(** X19: the search page hands its template the body parameter ['search']
    under ['query'], or the empty string when the body has none; the query
    string of the request plays no part, and the other keys of the
    framework's context are passed on. *)
Theorem search_post_query base (request : Request) :
  let response := SearchView.post base request in
  SearchView.response_template response = "InvenTree/search.html" ∧
  (∀ text, POST request !! "search" = Some text →
     SearchView.response_context response !! "query" =
     Some (CJson (JStr text))) ∧
  (POST request !! "search" = None →
     SearchView.response_context response !! "query" =
     Some (CJson (JStr ""))) ∧
  (∀ query_string,
     SearchView.post base {| GET := query_string; POST := POST request |} =
     response) ∧
  (∀ key, key ≠ "query" →
     SearchView.response_context response !! key = base !! key).
Proof.
  intros response. unfold response, SearchView.post. simpl.
  split; [done|]. split; [|split; [|split]].
  - intros text ->. by rewrite lookup_insert_eq.
  - intros ->. by rewrite lookup_insert_eq.
  - done.
  - intros key Hkey. by rewrite lookup_insert_ne.
Qed.

End pages_more.

(** ** The further properties at the sample data *)

Section samples_more.
Import Sample.
#[local] Existing Instance engine.

Lemma looped_no_top k r :
  looped !! k = Some r → TreeSerializer.parent r ≠ None.
Proof.
  intros Hk.
  assert (Forall (λ c : TreeSerializer.Item, TreeSerializer.parent c.2 ≠ None)
            (map_to_list looped)) as Hall.
  { vm_compute. repeat (constructor; [discriminate|]). constructor. }
  apply elem_of_map_to_list in Hk.
  apply (proj1 (Forall_forall _ _) Hall _ Hk).
Defined.

Lemma looped_no_depth m k : ¬ TreeSpec.depth looped m k.
Proof.
  intros Hd. induction Hd as [k r Hk Hp|m k r p Hk Hp _ IH]; [|done].
  by apply (looped_no_top k r).
Defined.

(** "SMD", two levels below "Electronics", is in the sample tree; the two
    records that name each other as parent are in no tree. *)
Lemma tree_holds_reachable_records_sample :
  (∃ top nodes,
     TreeSerializer.get category_tree 5 =
       Some (JsonResponse (JDict {[ "tree" := JList [JDict top] ]})) ∧
     top !! "nodes" = Some (JList nodes) ∧
     ∃ t, t ∈ nodes ∧ TreeNodes.occurs 5 t) ∧
  (∃ top nodes,
     TreeSerializer.get looped_tree 2 =
       Some (JsonResponse (JDict {[ "tree" := JList [JDict top] ]})) ∧
     top !! "nodes" = Some (JList nodes) ∧
     ¬ ∃ t, t ∈ nodes ∧ TreeNodes.occurs 1 t).
Proof.
  split.
  - destruct (tree_holds_reachable_records category_tree)
      as (top & nodes & Hget & Hnodes & Hiff).
    exists top, nodes. split; [apply Hget; vm_compute; lia|].
    split; [done|]. apply Hiff. exists 2%nat.
    eapply (TreeSpec.depth_child _ 1 5 smd 4); [done|done|].
    eapply (TreeSpec.depth_child _ 0 4 capacitors 2); [done|done|].
    by eapply (TreeSpec.depth_top _ 2 electronics).
  - destruct (tree_holds_reachable_records looped_tree)
      as (top & nodes & Hget & Hnodes & Hiff).
    exists top, nodes. split; [apply Hget; vm_compute; lia|].
    split; [done|]. intros [m Hd]%Hiff. by apply looped_no_depth in Hd.
Defined.

(** The looped table gives an empty tree, with no fuel at all. *)
Lemma tree_without_top_level_sample :
  TreeSerializer.get looped_tree 0 =
  Some (JsonResponse (JDict {[ "tree" := JList [JDict
    {[ "pk" := JNull;
       "text" := JStr "Categories";
       "href" := JStr "#";
       "nodes" := JList [];
       "tags" := JList [JInt 0] ]} ] ]})).
Proof. apply (tree_without_top_level looped_tree 0 looped_no_top). Defined.

(** The node of "Electronics": its own count, 7, and its two children. *)
Lemma itemToJson_node_fields_sample :
  ∃ d nodes,
    TreeSerializer.itemToJson category_tree 5 (2, electronics) =
      Some (JDict d) ∧
    d !! "tags" = Some (JList [JInt 7]) ∧
    d !! "nodes" = Some (JList nodes) ∧
    TreeSpec.text_of <$> nodes ≡ₚ [Some "Resistors"; Some "Capacitors"].
Proof.
  destruct (itemToJson_node_fields category_tree 0 (2, electronics))
    as (d & Hfuel & _ & _ & _ & Htags & Hnodes & _).
  - reflexivity.
  - by eapply TreeSpec.depth_top.
  - assert (TreeSerializer.itemToJson category_tree 5 (2, electronics) =
            Some (JDict d)) as Hd.
    { apply Hfuel. vm_compute. lia. }
    assert (∃ nodes, d !! "nodes" = Some (JList nodes)) as [nodes Hn].
    { revert Hd. vm_compute. intros [= <-]. by eexists. }
    exists d, nodes. split; [done|]. split; [done|]. split; [done|].
    rewrite (Hnodes nodes Hn). vm_compute.
    first [reflexivity|apply perm_swap].
Defined.

(** A name in the body and in the query string, and a name in neither. *)
Lemma get_param_source_sample :
  AjaxMixin.get_param search_request "search" "POST" = Some "resistor" ∧
  AjaxMixin.get_param search_request "search" "post" =
    Some "from the query string" ∧
  AjaxMixin.get_param search_request "page" "GET" = None.
Proof.
  split; [|split].
  - apply (proj1 (get_param_source search_request "search" "POST") eq_refl).
  - apply (proj1 (proj2 (get_param_source search_request "search" "post"))).
    discriminate.
  - apply (proj2 (proj2 (get_param_source search_request "page" "GET")));
      reflexivity.
Defined.

(** A call with a form that passes both dictionaries, and one that passes
    neither and has no form. *)
Lemma renderJsonResponse_frame_sample :
  (default_data
     (AjaxMixin.renderJsonResponse extended_view request (Some good_form)
        (Passed ∅) (Passed ∅) world).1 = ∅ ∧
   default_context
     (AjaxMixin.renderJsonResponse extended_view request (Some good_form)
        (Passed ∅) (Passed ∅) world).1 = ∅) ∧
  default_context
    (AjaxMixin.renderJsonResponse extended_view request None
       Omitted Omitted world).1 = ∅.
Proof.
  split; [split|].
  - apply (proj1 (proj2 (renderJsonResponse_frame extended_view request
             (Some good_form) (Passed ∅) (Passed ∅) world)) ∅ eq_refl).
  - apply (proj1 (proj2 (proj2 (renderJsonResponse_frame extended_view request
             (Some good_form) (Passed ∅) (Passed ∅) world))) ∅ eq_refl).
  - apply (proj2 (proj2 (proj2 (renderJsonResponse_frame extended_view request
             None Omitted Omitted world))) eq_refl).
Defined.

(** The QR view with and without the route parameter. *)
Lemma qr_get_effects_sample :
  QRCodeView.get qr_view request ∅ world = (world, Raises KeyError) ∧
  ∃ w' env,
    QRCodeView.get qr_view request {[ "pk" := JInt 7 ]} world =
      (w', Returns (JsonResponse (JDict env))) ∧
    table w' = table world ∧ default_data w' = env.
Proof.
  split.
  - apply (proj1 (qr_get_effects qr_view request ∅ world)). reflexivity.
  - destruct (proj2 (qr_get_effects qr_view request {[ "pk" := JInt 7 ]} world))
      as (w' & env & Hget & Htable & _ & Hdata & _).
    + by exists (JInt 7).
    + by exists w', env.
Defined.

(** The form page of the sample create view. *)
Lemma create_get_effects_sample :
  ∃ w' env,
    AjaxCreateView.get create_view request world =
      (w', Returns (JsonResponse (JDict env))) ∧
    table w' = table world ∧
    default_context w' !! "form" = Some (CForm good_form) ∧
    env !! "html_form" = Some (JStr "create.html+form").
Proof.
  destruct (create_get_effects create_view request world)
    as (w' & env & Hget & Htable & Hctx & _ & Hhtml).
  exists w', env. split; [done|]. split; [done|]. split.
  - rewrite Hctx. apply lookup_insert_eq.
  - by rewrite Hhtml.
Defined.

(** Key 9 is not in the sample table. *)
Lemma missing_record_not_found_sample :
  AjaxUpdateView.get update_view request 9 world = (world, Raises Http404) ∧
  AjaxUpdateView.post update_view request 9 world = (world, Raises Http404) ∧
  AjaxDeleteView.get delete_view request 9 world = (world, Raises Http404) ∧
  AjaxDeleteView.post delete_view request 9 world = (world, Raises Http404).
Proof.
  split; [|split; [|split]].
  - apply (missing_record_not_found update_view request 9 world eq_refl).
  - apply (missing_record_not_found update_view request 9 world eq_refl).
  - apply (missing_record_not_found delete_view request 9 world eq_refl).
  - apply (missing_record_not_found delete_view request 9 world eq_refl).
Defined.

(** A valid and an invalid form posted to an update view, and a valid one on
    a model whose URL method fails for another reason. *)
Lemma update_post_form_valid_sample :
  (∃ w' env,
     AjaxUpdateView.post update_view request 7 world =
       (w', Returns (JsonResponse (JDict env))) ∧
     env !! "form_valid" = Some (JBool true) ∧
     env !! "pk" = Some (JInt 7)) ∧
  AjaxUpdateView.post
    (AjaxUpdateView.subclass "" "Edit part" "edit.html"
       (λ _ _, good_form) (λ _, ∅) broken_url) request 7 world =
    (set_table (<[7 := ∅]> (table world)) world,
     Raises (OtherError "NoReverseMatch")) ∧
  (∃ w' env,
     AjaxUpdateView.post
       (AjaxUpdateView.subclass "" "Edit part" "edit.html"
          (λ _ _, bad_form) (λ _, ∅) with_url) request 7 world =
       (w', Returns (JsonResponse (JDict env))) ∧
     table w' = table world ∧
     env !! "form_valid" = Some (JBool false) ∧
     env !! "pk" = None).
Proof.
  split; [|split].
  - destruct (proj1 (update_post_form_valid "" "Edit part" "edit.html"
                (λ _ _, good_form) (λ _, ∅) with_url request 7 ∅ world eq_refl)
                eq_refl (7, ∅) (<[7 := ∅]> (table world)) eq_refl)
      as (w' & env & Hpost & _ & Hvalid & Hpk).
    + intros e He. discriminate He.
    + by exists w', env.
  - apply (proj1 (proj2 (update_post_form_valid "" "Edit part" "edit.html"
                (λ _ _, good_form) (λ _, ∅) broken_url request 7 ∅ world
                eq_refl))
             eq_refl (7, ∅) (<[7 := ∅]> (table world))
             (OtherError "NoReverseMatch") eq_refl eq_refl).
    discriminate.
  - apply (proj2 (proj2 (update_post_form_valid "" "Edit part" "edit.html"
                (λ _ _, bad_form) (λ _, ∅) with_url request 7 ∅ world
                eq_refl))
             eq_refl).
Defined.

(** The form page of the sample update view for record 7. *)
Lemma update_get_effects_sample :
  ∃ w' env,
    AjaxUpdateView.get update_view request 7 world =
      (w', Returns (JsonResponse (JDict env))) ∧
    table w' = table world ∧
    default_context w' = default_context world ∧
    env !! "html_form" = Some (JStr "edit.html+form").
Proof.
  destruct (update_get_effects update_view request 7 ∅ world eq_refl)
    as (w' & env & Hget & Htable & Hctx & Hhtml).
  exists w', env. split; [done|]. split; [done|]. split; [done|].
  by rewrite Hhtml.
Defined.

(** The confirmation page of the sample delete view for record 7. *)
Lemma delete_get_envelope_sample :
  ∃ env,
    AjaxDeleteView.get delete_view request 7 world =
      (world, Returns (JsonResponse (JDict env))) ∧
    env !! "delete" = Some (JBool false) ∧
    env !! "html_data" = Some (JStr "delete_obj.html") ∧
    env !! "html_form" = None.
Proof.
  destruct (delete_get_envelope delete_view request 7 ∅ world eq_refl)
    as (env & Hget & _ & Hdelete & _ & Hdata & Hform & _).
  exists env. split; [done|]. split; [done|]. split; [|done].
  by rewrite Hdata.
Defined.

(** Record 7 deleted, then asked for again. *)
Lemma delete_post_twice_sample :
  ∃ w1 response,
    AjaxDeleteView.post delete_view request 7 world = (w1, Returns response) ∧
    AjaxDeleteView.post delete_view request 7 w1 = (w1, Raises Http404).
Proof. apply (delete_post_twice delete_view request request 7 ∅ world eq_refl).
Defined.

(** A create POST, then a delete POST: the delete page is rendered with the
    create form. *)
Lemma create_form_reaches_delete_sample :
  ∃ w1 response w2 env,
    AjaxCreateView.post create_view request world = (w1, Returns response) ∧
    AjaxDeleteView.post delete_view request 7 w1 =
      (w2, Returns (JsonResponse (JDict env))) ∧
    default_context w2 !! "form" = Some (CForm good_form).
Proof.
  assert (∃ w1 response,
            AjaxCreateView.post create_view request world =
              (w1, Returns response) ∧
            table w1 !! 7 = Some ∅) as (w1 & response & Hpost & Hrow).
  { eexists _, _. split; [vm_compute; reflexivity|reflexivity]. }
  destruct (create_form_reaches_delete create_view delete_view request request
              7 ∅ world w1 response Hpost Hrow eq_refl)
    as (_ & w2 & env & Hdelete & _ & Hform).
  by exists w1, response, w2, env.
Defined.

(** The hook says valid, the form says invalid: the envelope says valid. *)
Lemma create_post_form_valid_hook_sample :
  ∃ w' env,
    AjaxCreateView.post hooked_create_view request world =
      (w', Returns (JsonResponse (JDict env))) ∧
    env !! "form_valid" = Some (JBool true).
Proof.
  assert (∃ w' env,
            AjaxCreateView.post hooked_create_view request world =
              (w', Returns (JsonResponse (JDict env))))
    as (w' & env & Hpost).
  { eexists _, _. vm_compute. reflexivity. }
  exists w', env. split; [done|].
  apply (create_post_form_valid_hook hooked_create_view request world w' env
           Hpost).
Defined.

(** The index page over the sample parts, with one key of the framework. *)
Lemma index_context_keys_sample :
  IndexView.get_context_data
    {[ "view" := IndexView.IOther (CJson (JStr "IndexView"));
       "starred" := IndexView.IOther (CJson JNull) ]}
    [ {| IndexView.part := (1, {| IndexView.purchaseable := true;
                                  IndexView.buildable := false;
                                  IndexView.need_to_restock := true |}) |} ]
    parts !! "view" = Some (IndexView.IOther (CJson (JStr "IndexView"))).
Proof.
  rewrite (proj1 (proj2 (index_context_keys _ _ parts)) "view")
    by discriminate.
  reflexivity.
Defined.

(** A search with a text in the body, and one without. *)
Lemma search_post_query_sample :
  SearchView.response_context (SearchView.post ∅ search_request) !! "query" =
    Some (CJson (JStr "resistor")) ∧
  SearchView.response_context (SearchView.post ∅ request) !! "query" =
    Some (CJson (JStr "")).
Proof.
  split.
  - apply (proj1 (proj2 (search_post_query ∅ search_request)) "resistor").
    reflexivity.
  - apply (proj1 (proj2 (proj2 (search_post_query ∅ request)))).
    reflexivity.
Defined.

End samples_more.
